(** * Green Procurement Advisor: the scoring and analysis pipeline of
    [server/index.js], embedded in Rocq.

    The server is an Express application with one middleware
    ([decodeIDToken]), one pure function ([calculateGreenScore]) and two
    routes ([POST /api/upload], [GET /api/history]).  The collaborators it
    calls (the identity provider, the csv-parser stream, the chat
    completion API and Firestore) are kept as explicit parameters and
    explicit state. *)

From Stdlib Require Import ZArith QArith Qround String Ascii List Lia Lqa Bool.
From Stdlib Require Import Permutation Sorted.
From stdpp Require Import base gmap strings list.

Local Open Scope Z_scope.
Local Open Scope string_scope.

(** ** JavaScript strings

    A string is a sequence of code units; the model keeps the code units
    U+0000..U+00FF, one [ascii] each. *)
Module JsString.

(** [String.prototype.toLowerCase] on one code unit below U+0100: the
    letters A..Z, and U+00C0..U+00DE except the multiplication sign
    U+00D7, move up by 32. *)
Definition lower_unit (c : ascii) : ascii :=
  let n := N_of_ascii c in
  if ((65 <=? n) && (n <=? 90) ||
      (192 <=? n) && (n <=? 222) && negb (n =? 215))%N
  then ascii_of_N (n + 32) else c.

Fixpoint toLowerCase (s : string) : string :=
  match s with
  | EmptyString => EmptyString
  | String c s' => String (lower_unit c) (toLowerCase s')
  end.

(** [s.startsWith(p)] *)
Fixpoint startsWith (s p : string) : bool :=
  match p, s with
  | EmptyString, _ => true
  | String _ _, EmptyString => false
  | String a p', String b s' => Ascii.eqb a b && startsWith s' p'
  end.

(** [s.includes(sub)]: [sub] starts at some position of [s]. *)
Fixpoint includes (s sub : string) : bool :=
  startsWith s sub ||
  match s with
  | EmptyString => false
  | String _ s' => includes s' sub
  end.

(** White space and line terminators below U+0100, as [trim] sees them. *)
Definition is_space (c : ascii) : bool :=
  let n := N_of_ascii c in
  ((9 <=? n) && (n <=? 13) || (n =? 32) || (n =? 160))%N.

Fixpoint trimStart (s : string) : string :=
  match s with
  | String c s' => if is_space c then trimStart s' else s
  | EmptyString => EmptyString
  end.

Fixpoint rev_onto (s acc : string) : string :=
  match s with
  | EmptyString => acc
  | String c s' => rev_onto s' (String c acc)
  end.

Definition reverse (s : string) : string := rev_onto s EmptyString.

Definition trimEnd (s : string) : string := reverse (trimStart (reverse s)).

(** [s.trim()] *)
Definition trim (s : string) : string := trimEnd (trimStart s).

(** [s.split(sep)[1]] for a non-empty [sep]: the text between the first
    occurrence of [sep] and the next one (or the end); [undefined] when
    [sep] does not occur. *)
Fixpoint upto (s sep : string) : string :=
  if startsWith s sep then EmptyString
  else match s with
       | EmptyString => EmptyString
       | String c s' => String c (upto s' sep)
       end.

Fixpoint drop (n : nat) (s : string) : string :=
  match n, s with
  | O, _ => s
  | S n', String _ s' => drop n' s'
  | S _, EmptyString => EmptyString
  end.

Fixpoint split_1 (s sep : string) : option string :=
  if startsWith s sep then Some (upto (drop (String.length sep) s) sep)
  else match s with
       | EmptyString => None
       | String _ s' => split_1 s' sep
       end.

End JsString.
Import JsString.

(** ** Rows

    One object emitted by the csv-parser stream: a map from header name to
    cell text. *)
Abbreviation Row := (gmap string string).

(** ** 4. Core logic: the rule-based scoring function

    [item] is [None] for a null or undefined argument.  [!item.product] holds
    for a missing property and for the empty string. *)
Definition calculateGreenScore (item : option Row) : Z :=
  match item with
  | None => 0
  | Some item =>
    match item !! "product" with
    | None => 0
    | Some EmptyString => 0
    | Some product =>
      let score := 50 in
      let productName := toLowerCase product in
      let score := if includes productName "recycled" then score + 20 else score in
      let score := if includes productName "compostable" then score + 20 else score in
      let score := if includes productName "organic" then score + 15 else score in
      let score := if includes productName "reusable" then score + 15 else score in
      let score := if includes productName "led" then score + 10 else score in
      let score := if includes productName "local" then score + 10 else score in
      let score := if includes productName "plastic" && negb (includes productName "reusable")
                   then score - 30 else score in
      let score := if includes productName "disposable" then score - 25 else score in
      let score := if includes productName "single-use" then score - 30 else score in
      Z.max 0 (Z.min 100 score)
    end
  end.

(** ** JSON text of an array of optional strings

    [JSON.stringify] of the array [results.map(i => i.product)]: a string is
    quoted and escaped, [undefined] is written [null]. *)
Module Json.

Definition dquote : string := String (ascii_of_N 34) EmptyString.
Definition backslash : string := String (ascii_of_N 92) EmptyString.

Definition hex_digit (n : N) : ascii :=
  if (n <? 10)%N then ascii_of_N (48 + n) else ascii_of_N (87 + n).

Definition quote_unit (c : ascii) : string :=
  let n := N_of_ascii c in
  if (n =? 8)%N then backslash ++ "b"
  else if (n =? 9)%N then backslash ++ "t"
  else if (n =? 10)%N then backslash ++ "n"
  else if (n =? 12)%N then backslash ++ "f"
  else if (n =? 13)%N then backslash ++ "r"
  else if (n =? 34)%N then backslash ++ dquote
  else if (n =? 92)%N then backslash ++ backslash
  else if (n <? 32)%N
       then backslash ++ "u00" ++
            String (hex_digit (n / 16)) (String (hex_digit (n mod 16)) EmptyString)
  else String c EmptyString.

Fixpoint quote_units (s : string) : string :=
  match s with
  | EmptyString => EmptyString
  | String c s' => quote_unit c ++ quote_units s'
  end.

Definition quote (s : string) : string := dquote ++ quote_units s ++ dquote.

Definition element (v : option string) : string :=
  match v with
  | Some s => quote s
  | None => "null"
  end.

Fixpoint elements (vs : list (option string)) : string :=
  match vs with
  | [] => EmptyString
  | [v] => element v
  | v :: vs' => element v ++ "," ++ elements vs'
  end.

Definition stringify (vs : list (option string)) : string :=
  "[" ++ elements vs ++ "]".

End Json.

(** ** Data of the routes *)

(** The object [{ ...data, greenScore: score }].  Its string-valued
    properties are the CSV columns (and, after enrichment, [suggestion]);
    [greenScore] is its one numeric property and shadows a column of that
    name. *)
Record Item := { columns : Row; greenScore : Z }.

(** [item.product] *)
Definition product (item : Item) : option string := columns item !! "product".

(** [item.suggestion = text] *)
Definition set_suggestion (text : string) (item : Item) : Item :=
  {| columns := <["suggestion" := text]> (columns item); greenScore := greenScore item |}.

(** The file multer keeps in memory. *)
Record File := { originalname : string; buffer : string }.

(** The decoded Firebase ID token. *)
Record DecodedToken := { uid : string }.

(** An incoming request before the middleware runs. *)
Record HttpRequest := { authorization : option string; upload_file : option File }.

(** The request as the route handlers see it. *)
Record Request := { currentUser : option DecodedToken; file : option File }.

Record FinalResult :=
  { fileName : string; averageScore : Z; summary : string; items : list Item }.

(** A document of the collection [analyses]. *)
Record Doc :=
  { doc_id : string; doc_data : FinalResult; userId : string; createdAt : Z }.

(** One element of the history response: [{ id, ...data, createdAt }] with
    the timestamp as text. *)
Record HistoryEntry :=
  { id : string; entry_data : FinalResult; entry_userId : string;
    entry_createdAt : string }.

Inductive Body :=
| ErrorBody (error : string)
| ResultBody (result : FinalResult)
| HistoryBody (history : list HistoryEntry).

Record Response := { status : Z; body : Body }.

(** [res.json(b)] and [res.status(code).json(b)] *)
Definition res_json (b : Body) : Response := {| status := 200; body := b |}.
Definition res_status_json (code : Z) (b : Body) : Response :=
  {| status := code; body := b |}.

(** What the handlers can change or use up: the stored collection, and how
    many calls went to Firestore and to the completion API. *)
Record World :=
  { analyses : list Doc; storage_calls : nat; completion_calls : nat }.

(** ** Handlers as state-passing computations that may throw *)
Inductive Outcome (A : Type) :=
| Returned (a : A)
| Thrown.
Arguments Returned {A} a.
Arguments Thrown {A}.

Definition M (A : Type) : Type := World -> Outcome A * World.

Definition ret {A} (a : A) : M A := fun w => (Returned a, w).

Definition throw {A} : M A := fun w => (Thrown, w).

Definition bind {A B} (c : M A) (k : A -> M B) : M B :=
  fun w =>
    match c w with
    | (Returned a, w') => k a w'
    | (Thrown, w') => (Thrown, w')
    end.

(** [try { c } catch (e) { h }] *)
Definition try_catch {A} (c : M A) (h : M A) : M A :=
  fun w =>
    match c w with
    | (Returned a, w') => (Returned a, w')
    | (Thrown, w') => h w'
    end.

Declare Scope js_scope.
Delimit Scope js_scope with js.
Notation "x <- c1 ;; c2" := (bind c1 (fun x => c2))
  (at level 100, c1 at next level, right associativity) : js_scope.

Fixpoint mapM {A B} (f : A -> M B) (l : list A) : M (list B) :=
  match l with
  | [] => ret []
  | a :: l' => (b <- f a ;; bs <- mapM f l' ;; ret (b :: bs))%js
  end.

(** [await p] for a promise that has settled with [p]. *)
Definition await {A} (p : option A) : M A :=
  match p with
  | Some a => ret a
  | None => throw
  end.

(** [Promise.all]: fulfilled with every value when every promise is
    fulfilled, rejected as soon as one is. *)
Fixpoint Promise_all {A} (ps : list (option A)) : option (list A) :=
  match ps with
  | [] => Some []
  | Some a :: ps' =>
      match Promise_all ps' with
      | Some l => Some (a :: l)
      | None => None
      end
  | None :: _ => None
  end.

(** [Math.round] of a rational: the nearest integer, a half going up.

    Numbers are kept exact: a sum of scores is an integer and its quotient
    by the row count a rational.  The double-precision quotient of the
    source rounds to the same integer as long as the count stays below
    2^45, since scores lie between 0 and 100 and a quotient that is not a
    half-integer is at least [1 / (2 * count)] away from one. *)
Definition Math_round (x : Q) : Z := Qfloor (x + (1 # 2)).

(** ** The server *)
Section Server.

(** *** Collaborators

    - [verifyIdToken]: the identity provider; [None] when verification
      throws.
    - [csv mapHeaders buffer]: the csv-parser stream piped from the
      buffer; the rows it emits before [end], or [None] when it emits
      [error].
    - [completion k prompt max_tokens]: how the [k]-th request to the
      chat completion API settles; [Some content] is the text of
      [choices[0].message.content], [None] a rejected request.
    - [firestore_up k]: whether the [k]-th call to Firestore succeeds;
      [firestore_id k] and [serverTimestamp k] are the document id and
      the server time it assigns.
    - [toISOString]: the textual form of a timestamp. *)
Variable verifyIdToken : string -> option DecodedToken.
Variable csv : (string -> string) -> string -> option (list Row).
Variable completion : nat -> string -> Z -> option string.
Variable firestore_up : nat -> bool.
Variable firestore_id : nat -> string.
Variable serverTimestamp : nat -> Z.
Variable toISOString : Z -> string.

(** *** 3. Middleware: decode the Firebase ID token *)
Definition decodeIDToken (req : HttpRequest) : Request :=
  {| currentUser :=
       match authorization req with
       | Some header =>
           if startsWith header "Bearer " then
             match split_1 header "Bearer " with
             | Some idToken => verifyIdToken idToken
             | None => None
             end
           else None
       | None => None
       end;
     file := upload_file req |}.

(** *** The completion API: [openai.chat.completions.create] returns a
    promise; the request is issued at the call. *)
Definition chat_completions_create (prompt : string) (max_tokens : Z)
  : M (option string) :=
  fun w =>
    (Returned (completion (completion_calls w) prompt max_tokens),
     {| analyses := analyses w;
        storage_calls := storage_calls w;
        completion_calls := S (completion_calls w) |}).

(** *** Firestore: [db.collection('analyses')] *)
Definition collection_add (data : FinalResult) (owner : string) : M unit :=
  fun w =>
    let k := storage_calls w in
    if firestore_up k then
      (Returned tt,
       {| analyses :=
            analyses w ++
            [{| doc_id := firestore_id k; doc_data := data;
                userId := owner; createdAt := serverTimestamp k |}];
          storage_calls := S k;
          completion_calls := completion_calls w |})
    else
      (Thrown,
       {| analyses := analyses w;
          storage_calls := S k;
          completion_calls := completion_calls w |}).

(** [.where('userId', '==', uid)] *)
Definition where_userId (owner : string) (docs : list Doc) : list Doc :=
  List.filter (fun d => String.eqb (userId d) owner) docs.

(** [.orderBy('createdAt', 'desc')]: the order Firestore returns, later
    documents first.  Documents with equal [createdAt] stay here in the
    order of the collection; Firestore orders those by document name, so
    only the order among documents of equal [createdAt] can differ. *)
Fixpoint insert_desc (d : Doc) (docs : list Doc) : list Doc :=
  match docs with
  | [] => [d]
  | e :: docs' =>
      if (createdAt e <? createdAt d)%Z then d :: docs
      else e :: insert_desc d docs'
  end.

Definition orderBy_createdAt_desc (docs : list Doc) : list Doc :=
  fold_right insert_desc [] docs.

(** [.get()] on the query; the result is [snapshot.docs]. *)
Definition query_get (owner : string) : M (list Doc) :=
  fun w =>
    let k := storage_calls w in
    let w' := {| analyses := analyses w;
                 storage_calls := S k;
                 completion_calls := completion_calls w |} in
    if firestore_up k then
      (Returned (orderBy_createdAt_desc (where_userId owner (analyses w))), w')
    else (Thrown, w').

(** *** 5. Route [POST /api/upload] *)

(** The [data] listener. *)
Definition on_data (results : list Item) (data : Row) : list Item :=
  let score := calculateGreenScore (Some data) in
  results ++ [{| columns := data; greenScore := score |}].

(** A value spliced into a template literal. *)
Definition template (v : option string) : string :=
  match v with
  | Some s => s
  | None => "undefined"
  end.

Definition summaryPrompt (results : list Item) : string :=
  "Based on this list of purchased items: " ++
  Json.stringify (map product results) ++
  ", write a 2-3 sentence summary of the environmental impact.".

Definition alternativePrompt (item : Item) : string :=
  "Suggest one greener, sustainable alternative for " ++ Json.dquote ++
  template (product item) ++ Json.dquote ++
  " that is commonly available in India.".

(** [results.filter(item => item.greenScore < 40)]: the new array holds
    the same objects as [results]; each is kept with its position in
    [results], which is the reference an assignment goes through. *)
Fixpoint low_from (i : nat) (results : list Item) : list (nat * Item) :=
  match results with
  | [] => []
  | item :: rest =>
      if (greenScore item <? 40)%Z then (i, item) :: low_from (S i) rest
      else low_from (S i) rest
  end.

Definition lowScoringItems (results : list Item) : list (nat * Item) :=
  low_from 0 results.

(** The async arrow mapped over [lowScoringItems]: called, it issues its
    request; the promise it returns is fulfilled once the request is and
    the suggestion is assigned. *)
Definition suggest (ref : nat * Item) : M (option (nat * string)) :=
  (altCompletion <- chat_completions_create (alternativePrompt (snd ref)) 60 ;;
   ret (option_map (fun content => (fst ref, trim content)) altCompletion))%js.

(** The assignments [item.suggestion = ...] of the fulfilled arrows. *)
Definition assign (results : list Item) (a : nat * string) : list Item :=
  alter (set_suggestion (snd a)) (fst a) results.

Definition totalScore (results : list Item) : Z :=
  fold_left (fun acc item => acc + greenScore item) results 0.

Definition average (results : list Item) : Z :=
  if (0 <? Z.of_nat (length results))%Z
  then Math_round (inject_Z (totalScore results) / inject_Z (Z.of_nat (length results)))
  else 0.

(** The [end] listener. *)
Definition on_end (user : DecodedToken) (f : File) (results : list Item)
  : M Response :=
  try_catch
    (summaryCompletion <-
       (p <- chat_completions_create (summaryPrompt results) 100 ;; await p) ;;
     let summary := trim summaryCompletion in
     promises <- mapM suggest (lowScoringItems results) ;;
     assignments <- await (Promise_all promises) ;;
     let results := fold_left assign assignments results in
     let averageScore := average results in
     let finalResult :=
       {| fileName := originalname f; averageScore := averageScore;
          summary := summary; items := results |} in
     _ <- collection_add finalResult (uid user) ;;
     ret (res_json (ResultBody finalResult)))%js
    (ret (res_status_json 500
            (ErrorBody "Failed to get AI insights or save data."))).

Definition upload (req : Request) : M Response :=
  match currentUser req with
  | None =>
      ret (res_status_json 401
             (ErrorBody "Unauthorized. You must be logged in to upload."))
  | Some user =>
      match file req with
      | None => ret (res_status_json 400 (ErrorBody "No file uploaded."))
      | Some f =>
          match csv toLowerCase (buffer f) with
          | Some rows => on_end user f (fold_left on_data rows [])
          | None =>
              ret (res_status_json 500
                     (ErrorBody "Failed to process CSV file."))
          end
      end
  end.

(** *** 5. Route [GET /api/history] *)
Definition history_entry (doc : Doc) : HistoryEntry :=
  {| id := doc_id doc; entry_data := doc_data doc;
     entry_userId := userId doc;
     entry_createdAt := toISOString (createdAt doc) |}.

Definition history (req : Request) : M Response :=
  match currentUser req with
  | None =>
      ret (res_status_json 401
             (ErrorBody "Unauthorized. You must be logged in to view history."))
  | Some user =>
      try_catch
        (docs <- query_get (uid user) ;;
         match docs with
         | [] => ret (res_json (HistoryBody []))
         | _ => ret (res_json (HistoryBody (map history_entry docs)))
         end)%js
        (ret (res_status_json 500
                (ErrorBody "Failed to fetch analysis history.")))
  end.

(** The application: the middleware, then the route. *)
Inductive Route := POST_api_upload | GET_api_history.

Definition app (route : Route) (req : HttpRequest) : M Response :=
  match route with
  | POST_api_upload => upload (decodeIDToken req)
  | GET_api_history => history (decodeIDToken req)
  end.

End Server.

(** ** A tokeniser for plain CSV text

    csv-parser is a package the server imports.  For the concrete requests
    below, this is what it does on a buffer of LF-terminated, non-empty
    lines whose cells hold no quote and no comma, each line with as many
    cells as the first: the first line gives the headers, each passed
    through [mapHeaders]; every other line gives one row object, cell [i]
    stored under header [i], a later header replacing an equal earlier
    one.  It emits no [error] on such buffers, and no row for an empty
    buffer.  Outside such buffers this tokeniser is not csv-parser: it
    keeps the CR of a CRLF line end, skips an empty line and drops the
    cells beyond the last header, where csv-parser strips the CR, emits a
    row for the empty line and keeps the surplus cells under [_N]. *)
Module CsvParser.

(** [s.split(sep)] for a separator of one code unit. *)
Fixpoint split_on (sep : ascii) (s : string) : list string :=
  match s with
  | EmptyString => [EmptyString]
  | String c s' =>
      if Ascii.eqb c sep then EmptyString :: split_on sep s'
      else match split_on sep s' with
           | cell :: cells => String c cell :: cells
           | [] => [String c EmptyString]
           end
  end.

Definition lines (buffer : string) : list string :=
  List.filter (fun l => negb (String.eqb l EmptyString))
              (split_on (ascii_of_N 10) buffer).

Definition writeRow (headers cells : list string) : Row :=
  fold_left (fun o hc => <[fst hc := snd hc]> o) (combine headers cells) ∅.

Definition parse (mapHeaders : string -> string) (buffer : string)
  : option (list Row) :=
  match lines buffer with
  | [] => Some []
  | first :: rest =>
      let headers := map mapHeaders (split_on "," first) in
      Some (map (fun l => writeRow headers (split_on "," l)) rest)
  end.

End CsvParser.

(** ** Concrete collaborators and requests *)
Module Demo.

Definition newline : string := String (ascii_of_N 10) EmptyString.

(** The example file of the README. *)
Definition readme_csv : string :=
  "product,quantity,price" ++ newline ++
  "Recycled A4 Paper,100,25.00" ++ newline ++
  "Disposable Plastic Cups,200,15.00" ++ newline ++
  "LED Light Bulbs,50,120.00" ++ newline.

(** The same file with the product column headed [Item]. *)
Definition item_csv : string :=
  "Item,quantity" ++ newline ++
  "Recycled A4 Paper,100" ++ newline.

(** A file that brings its own [suggestion] column. *)
Definition suggestion_csv : string :=
  "product,suggestion" ++ newline ++
  "LED Light Bulbs,keep buying these" ++ newline.


Definition alice : DecodedToken := {| uid := "alice" |}.

(** The rows the tokeniser gives for a file. *)
Definition rows_of (content : string) : list Row :=
  match CsvParser.parse toLowerCase content with
  | Some rows => rows
  | None => []
  end.

(** An identity provider that knows one token. *)
Definition verifyIdToken (idToken : string) : option DecodedToken :=
  if String.eqb idToken "alice-token" then Some alice else None.

(** A completion API that answers every request. *)
Definition completion_ok (k : nat) (prompt : string) (max_tokens : Z)
  : option string :=
  Some " Buy greener. ".

(** A completion API whose second request (the first alternative
    request of an upload into a fresh world) is rejected. *)
Definition completion_second_fails (k : nat) (prompt : string) (max_tokens : Z)
  : option string :=
  if Nat.eqb k 1 then None else Some " Buy greener. ".

Definition firestore_up (k : nat) : bool := true.
Definition firestore_id (k : nat) : string := "doc".
Definition serverTimestamp (k : nat) : Z := Z.of_nat k.
Definition toISOString (t : Z) : string := "1970-01-01T00:00:00.000Z".

Definition world0 : World :=
  {| analyses := []; storage_calls := 0; completion_calls := 0 |}.

Definition upload_of (name content : string) : HttpRequest :=
  {| authorization := Some "Bearer alice-token";
     upload_file := Some {| originalname := name; buffer := content |} |}.

(** The server wired to the collaborators above. *)
Definition app_ok : Route -> HttpRequest -> M Response :=
  app verifyIdToken CsvParser.parse completion_ok
      firestore_up firestore_id serverTimestamp toISOString.

Definition app_second_fails : Route -> HttpRequest -> M Response :=
  app verifyIdToken CsvParser.parse completion_second_fails
      firestore_up firestore_id serverTimestamp toISOString.

(** Scores and average of a response, when it carries a result. *)
Definition scores_of (r : Outcome Response) : option (list Z * Z) :=
  match r with
  | Returned {| body := ResultBody fr |} =>
      Some (map greenScore (items fr), averageScore fr)
  | _ => None
  end.

Definition status_of (r : Outcome Response) : option Z :=
  match r with
  | Returned resp => Some (status resp)
  | Thrown => None
  end.

(** The [suggestion] property of each item of a response. *)
Definition suggestions_of (r : Outcome Response) : option (list (option string)) :=
  match r with
  | Returned {| body := ResultBody fr |} =>
      Some (map (fun item => columns item !! "suggestion") (items fr))
  | _ => None
  end.

(** The result a response carries. *)
Definition result_of (r : Outcome Response) : FinalResult :=
  match r with
  | Returned {| body := ResultBody fr |} => fr
  | _ => {| fileName := EmptyString; averageScore := 0;
            summary := EmptyString; items := [] |}
  end.

Definition file_of (name content : string) : File :=
  {| originalname := name; buffer := content |}.

(** The upload handler wired to the collaborators above. *)
Definition upload_ok : Request -> M Response :=
  upload CsvParser.parse completion_ok firestore_up firestore_id serverTimestamp.


Definition by_alice (f : option File) : Request :=
  {| currentUser := Some alice; file := f |}.

(** A stored history of two owners. *)
Definition doc_of (name owner : string) (t : Z) : Doc :=
  {| doc_id := name;
     doc_data := {| fileName := name; averageScore := 0;
                    summary := EmptyString; items := [] |};
     userId := owner; createdAt := t |}.

Definition world_history : World :=
  {| analyses := [doc_of "a1" "alice" 10; doc_of "b1" "bob" 20;
                  doc_of "a2" "alice" 30; doc_of "a3" "alice" 20];
     storage_calls := 0; completion_calls := 0 |}.

End Demo.

(** ** The mean of a list of scores, and rounding, as the specification
    words them *)
Definition sum_scores (scores : list Z) : Z := fold_right Z.add 0 scores.

Definition mean (scores : list Z) : Q :=
  inject_Z (sum_scores scores) / inject_Z (Z.of_nat (length scores)).

(** [m] is [q] rounded: the integer nearest to [q], the upper one of two
    equally near. *)
Definition rounds_to (q : Q) (m : Z) : Prop :=
  (inject_Z m - (1 # 2) <= q)%Q /\ (q < inject_Z m + (1 # 2))%Q.

(** [a] may come before [b] in a history: [a] is not older than [b]. *)
Definition not_older (a b : Doc) : Prop := createdAt b <= createdAt a.

(** A row, possibly absent, that has no product value. *)
Definition no_product_value (item : option Row) : Prop :=
  match item with
  | None => True
  | Some row => row !! "product" = None \/ row !! "product" = Some EmptyString
  end.

(** ** The enrichment step, request by request *)

(** How the alternative requests of one upload settle: the request for the
    [j]-th low-scoring item is call number [k + j] of the completion API. *)
Fixpoint alt_outcomes (completion : nat -> string -> Z -> option string)
         (k : nat) (refs : list (nat * Item)) : list (option string) :=
  match refs with
  | [] => []
  | ref :: refs' =>
      completion k (alternativePrompt (snd ref)) 60 ::
      alt_outcomes completion (S k) refs'
  end.

(** The items once every low-scoring one, in order, has been given the next
    text of [texts] as its suggestion. *)
Fixpoint attach (texts : list string) (results : list Item) : list Item :=
  match results with
  | [] => []
  | item :: rest =>
      if (greenScore item <? 40)%Z then
        match texts with
        | t :: texts' => set_suggestion t item :: attach texts' rest
        | [] => item :: rest
        end
      else item :: attach texts rest
  end.

(** The row as the [data] listener stores it. *)
Definition scored (data : Row) : Item :=
  {| columns := data; greenScore := calculateGreenScore (Some data) |}.

Definition ai_error : Response :=
  res_status_json 500 (ErrorBody "Failed to get AI insights or save data.").

(** ** Names for what the upload route answers and stores *)

Definition csv_error : Response :=
  res_status_json 500 (ErrorBody "Failed to process CSV file.").

(** The document the [k]-th Firestore call adds for [owner]. *)
Definition stored_doc (firestore_id : nat -> string) (serverTimestamp : nat -> Z)
           (k : nat) (owner : string) (fr : FinalResult) : Doc :=
  {| doc_id := firestore_id k; doc_data := fr;
     userId := owner; createdAt := serverTimestamp k |}.

(** The alternative prompt for an item without a product property. *)
Definition undefined_prompt : string :=
  "Suggest one greener, sustainable alternative for " ++ Json.dquote ++
  "undefined" ++ Json.dquote ++ " that is commonly available in India.".

(** ** More concrete collaborators *)
Module Scenario.

Definition bob : DecodedToken := {| uid := "bob" |}.

(** A parser that emits [error] on every buffer. *)
Definition csv_broken (mapHeaders : string -> string) (content : string)
  : option (list Row) := None.

(** A completion API that rejects every request. *)
Definition completion_down (k : nat) (prompt : string) (max_tokens : Z)
  : option string := None.

Definition readme_file : File := Demo.file_of "procurement.csv" Demo.readme_csv.

(** The world and the result after Alice's upload of the README file. *)
Definition readme_run : Outcome Response * World :=
  Demo.upload_ok (Demo.by_alice (Some readme_file)) Demo.world0.

Definition readme_result : FinalResult := Demo.result_of (fst readme_run).

Definition history_of (user : DecodedToken) : World -> Outcome Response * World :=
  history Demo.firestore_up Demo.toISOString {| currentUser := Some user; file := None |}.

(** A world that holds the stored history after forty Firestore calls. *)
Definition world_later : World :=
  {| analyses := analyses Demo.world_history;
     storage_calls := 40; completion_calls := 7 |}.

(** Alice's upload of the README file into that world. *)
Definition later_run : Outcome Response * World :=
  Demo.upload_ok (Demo.by_alice (Some readme_file)) world_later.

Definition later_result : FinalResult := Demo.result_of (fst later_run).

(** A file without a product column. *)
Definition item_file : File := Demo.file_of "items.csv" Demo.item_csv.

(** The upload handler behind the failing parser, and behind the failing
    completion API. *)
Definition upload_broken : Request -> M Response :=
  upload csv_broken Demo.completion_ok
         Demo.firestore_up Demo.firestore_id Demo.serverTimestamp.

Definition upload_down : Request -> M Response :=
  upload CsvParser.parse completion_down
         Demo.firestore_up Demo.firestore_id Demo.serverTimestamp.

(** The second item of the README result: the plastic cups. *)
Definition cups_item : Item :=
  match items readme_result with
  | _ :: item :: _ => item
  | _ => {| columns := ∅; greenScore := 0 |}
  end.

End Scenario.

(** ** The client: [client-app/src/App.jsx]

    The React component keeps six pieces of state and changes them in its
    event handlers.  A handler is a function from the component state and
    the server's world to the state and world once every promise it started
    has settled.  [axios] reaches the server of this repository: the
    request goes through the middleware and the route, and the answer comes
    back; a status outside 200..299 rejects the promise. *)
Module Client.

(** The signed-in Firebase user; [idToken] is what [getIdToken()] resolves
    to, [None] when it rejects. *)
Record ClientUser := { displayName : string; idToken : option string }.

(** The state of [App]; [analysisResult] and [history] hold response data
    as received. *)
Record State :=
  { user : option ClientUser;
    selectedFile : option File;
    analysisResult : option Body;
    history : Body;
    loading : bool;
    error : string }.

(** The initial values of the [useState] calls. *)
Definition initial : State :=
  {| user := None; selectedFile := None; analysisResult := None;
     history := HistoryBody []; loading := false; error := EmptyString |}.

Definition setUser (v : option ClientUser) (st : State) : State :=
  {| user := v; selectedFile := selectedFile st;
     analysisResult := analysisResult st; history := history st;
     loading := loading st; error := error st |}.

Definition setSelectedFile (v : option File) (st : State) : State :=
  {| user := user st; selectedFile := v;
     analysisResult := analysisResult st; history := history st;
     loading := loading st; error := error st |}.

Definition setAnalysisResult (v : option Body) (st : State) : State :=
  {| user := user st; selectedFile := selectedFile st;
     analysisResult := v; history := history st;
     loading := loading st; error := error st |}.

Definition setHistory (v : Body) (st : State) : State :=
  {| user := user st; selectedFile := selectedFile st;
     analysisResult := analysisResult st; history := v;
     loading := loading st; error := error st |}.

Definition setLoading (v : bool) (st : State) : State :=
  {| user := user st; selectedFile := selectedFile st;
     analysisResult := analysisResult st; history := history st;
     loading := v; error := error st |}.

Definition setError (v : string) (st : State) : State :=
  {| user := user st; selectedFile := selectedFile st;
     analysisResult := analysisResult st; history := history st;
     loading := loading st; error := v |}.

(** [getScoreColor] *)
Definition getScoreColor (score : Z) : string :=
  if (70 <=? score)%Z then "green"
  else if (40 <=? score)%Z then "orange"
  else "red".

(** [item.suggestion || 'N/A']: a missing or empty suggestion shows as
    N/A. *)
Definition suggestion_cell (item : Item) : string :=
  match columns item !! "suggestion" with
  | Some (String c s) => String c s
  | Some EmptyString => "N/A"
  | None => "N/A"
  end.

Section Handlers.

(** The server the client talks to. *)
Variable server : Route -> HttpRequest -> M Response.

(** [axios.get] / [axios.post]: [Some data] when the promise is fulfilled
    with a response carrying [data], [None] when it is rejected. *)
Definition axios (route : Route) (req : HttpRequest) (w : World)
  : option Body * World :=
  match server route req w with
  | (Returned resp, w') =>
      if (200 <=? status resp)%Z && (status resp <? 300)%Z
      then (Some (body resp), w')
      else (None, w')
  | (Thrown, w') => (None, w')
  end.

(** The header [{ Authorization: `Bearer ${token}` }]. *)
Definition bearer (token : string) : option string := Some ("Bearer " ++ token).

Definition fetchHistory (currentUser : option ClientUser) (st : State) (w : World)
  : State * World :=
  match currentUser with
  | None => (st, w)
  | Some u =>
      match idToken u with
      | None => (st, w)
      | Some token =>
          match axios GET_api_history
                      {| authorization := bearer token; upload_file := None |} w with
          | (Some data, w') => (setHistory data st, w')
          | (None, w') => (st, w')
          end
      end
  end.

(** The listener given to [onAuthStateChanged]. *)
Definition onAuthStateChanged (currentUser : option ClientUser) (st : State) (w : World)
  : State * World :=
  let st := setUser currentUser st in
  match currentUser with
  | Some _ => fetchHistory currentUser st w
  | None => (setHistory (HistoryBody []) st, w)
  end.

(** [handleLogout]: signing out makes Firebase call the listener with no
    user. *)
Definition handleLogout (st : State) (w : World) : State * World :=
  onAuthStateChanged None (setAnalysisResult None st) w.

(** [handleFileChange]; [files0] is [event.target.files[0]]. *)
Definition handleFileChange (files0 : option File) (st : State) : State :=
  setError EmptyString (setAnalysisResult None (setSelectedFile files0 st)).

Definition upload_failed : string :=
  "An error occurred during analysis. Please check the file or try again.".

Definition handleUpload (st : State) (w : World) : State * World :=
  match selectedFile st, user st with
  | Some selected, Some u =>
      let st := setError EmptyString (setLoading true st) in
      match idToken u with
      | None => (setLoading false (setError upload_failed st), w)
      | Some token =>
          match axios POST_api_upload
                      {| authorization := bearer token;
                         upload_file := Some selected |} w with
          | (Some data, w') =>
              let st := setAnalysisResult (Some data) st in
              let (st', w'') := fetchHistory (Some u) st w' in
              (setLoading false st', w'')
          | (None, w') => (setLoading false (setError upload_failed st), w')
          end
      end
  | _, _ => (setError "Please select a file first." st, w)
  end.

End Handlers.

End Client.

(** The restyled component of the later versions of [App.jsx]. *)
Module StyledClient.

Definition getScoreColor (score : Z) : string :=
  if (70 <=? score)%Z then "text-green-600 bg-green-100"
  else if (40 <=? score)%Z then "text-yellow-600 bg-yellow-100"
  else "text-red-600 bg-red-100".

Definition getScoreBadgeColor (score : Z) : string :=
  if (70 <=? score)%Z then "bg-green-500 text-white"
  else if (40 <=? score)%Z then "bg-yellow-500 text-white"
  else "bg-red-500 text-white".

End StyledClient.

(** A signed-in client for the concrete collaborators. *)
Module ClientScenario.

Definition alice : Client.ClientUser :=
  {| Client.displayName := "Alice"; Client.idToken := Some "alice-token" |}.


Definition ready (u : Client.ClientUser) (f : File) : Client.State :=
  Client.setSelectedFile (Some f) (Client.setUser (Some u) Client.initial).

End ClientScenario.

(** * Properties *)

(** ** The scoring function *)

Lemma clamp_range (score : Z) : 0 <= Z.max 0 (Z.min 100 score) <= 100.
Proof. lia. Qed.

Lemma score_range (item : option Row) : 0 <= calculateGreenScore item <= 100.
Proof.
  unfold calculateGreenScore.
  destruct item as [row|]; [|lia].
  destruct (row !! "product") as [[|c s]|]; [lia|apply clamp_range|lia].
Qed.

Lemma score_no_product (item : option Row) :
  no_product_value item -> calculateGreenScore item = 0.
Proof.
  unfold calculateGreenScore, no_product_value.
  destruct item as [row|]; [|reflexivity].
  intros [H|H]; rewrite H; reflexivity.
Qed.

(** The score is a function of [item.product] alone. *)
Lemma score_of_product (row : Row) :
  calculateGreenScore (Some row) =
  calculateGreenScore (Some (from_option (fun p => {["product" := p]}) ∅ (row !! "product"))).
Proof.
  unfold calculateGreenScore.
  destruct (row !! "product") as [p|] eqn:E; simpl.
  - rewrite lookup_singleton_eq. reflexivity.
  - rewrite lookup_empty. reflexivity.
Qed.

(** C1, as the code has it: a row whose product is "Recycled Paper" scores
    80, not 70: the baseline 50, plus 20 for "recycled", plus 10 for "led",
    which the text "recycled" ends with.  In the three-row upload of the
    README file the item "Recycled A4 Paper" gets 80, the scores are
    [80; 0; 60] in input order and the average is 47. *)
Theorem C1_recycled_paper_scores_80 :
  calculateGreenScore (Some {["product" := "Recycled Paper"]}) = 80 /\
  includes (toLowerCase "Recycled Paper") "led" = true /\
  calculateGreenScore (Some {["product" := "Recycled A4 Paper"]}) = 80 /\
  Demo.scores_of
    (fst (Demo.app_ok POST_api_upload
            (Demo.upload_of "procurement.csv" Demo.readme_csv) Demo.world0))
  = Some ([80; 0; 60], 47).
Proof. repeat split; vm_compute; reflexivity. Qed.

(** C1 as stated fails: the score of "Recycled Paper" is not 70, and the
    scenario's scores and average are not [70; 0; 60] and 43. *)
Lemma C1_counterexample :
  calculateGreenScore (Some {["product" := "Recycled Paper"]}) <> 70 /\
  Demo.scores_of
    (fst (Demo.app_ok POST_api_upload
            (Demo.upload_of "procurement.csv" Demo.readme_csv) Demo.world0))
  <> Some ([70; 0; 60], 43).
Proof. split; vm_compute; discriminate. Qed.

(** C3: the header alias "item" is not resolved.  A file whose product
    column is headed "Item" gives a row with the cell under the key "item"
    and no product value, and the row scores 0 through the missing-product
    guard; the same cell under the header "Product" scores 80. *)
Theorem C3_item_header_scores_zero :
  (exists row : Row,
      CsvParser.parse toLowerCase Demo.item_csv = Some [row] /\
      row !! "item" = Some "Recycled A4 Paper" /\
      row !! "product" = None /\
      calculateGreenScore (Some row) = 0) /\
  Demo.scores_of
    (fst (Demo.app_ok POST_api_upload
            (Demo.upload_of "items.csv" Demo.item_csv) Demo.world0))
  = Some ([0], 0) /\
  calculateGreenScore
    (Some (CsvParser.writeRow (map toLowerCase ["Product"]) ["Recycled A4 Paper"])) = 80.
Proof.
  split; [|split; vm_compute; reflexivity].
  eexists. split; [vm_compute; reflexivity|].
  repeat split; vm_compute; reflexivity.
Qed.

(** C5: the score of every row, absent or present, with or without a
    product, is an integer between 0 and 100; and it is 0 when the row is
    absent or its product is missing or empty, whatever the other columns
    hold. *)
Theorem C5_score_in_range (item : option Row) :
  0 <= calculateGreenScore item <= 100 /\
  (no_product_value item -> calculateGreenScore item = 0).
Proof. split; [apply score_range | apply score_no_product]. Qed.

Lemma C5_witness :
  no_product_value (Some {["quantity" := "recycled"; "product" := EmptyString]}) /\
  calculateGreenScore (Some {["quantity" := "recycled"; "product" := EmptyString]}) = 0.
Proof.
  assert (H : no_product_value (Some {["quantity" := "recycled"; "product" := EmptyString]})).
  { right. vm_compute. reflexivity. }
  split; [exact H|].
  exact (proj2 (C5_score_in_range _) H).
Defined.

(** C10: two rows with the same product value, present or missing, get
    the same score, whatever else either row holds. *)
Theorem C10_score_depends_on_product_only (row1 row2 : Row) :
  row1 !! "product" = row2 !! "product" ->
  calculateGreenScore (Some row1) = calculateGreenScore (Some row2).
Proof.
  intros H. rewrite (score_of_product row1), (score_of_product row2), H.
  reflexivity.
Qed.

Lemma C10_witness :
  calculateGreenScore (Some {["product" := "LED Light Bulbs"; "price" := "120.00"]}) =
  calculateGreenScore (Some {["product" := "LED Light Bulbs"; "vendor" := "recycled plastic"]}).
Proof.
  apply C10_score_depends_on_product_only.
  vm_compute. reflexivity.
Defined.

(** ** Running the handlers *)

Lemma on_data_fold (rows : list Row) (acc : list Item) :
  fold_left on_data rows acc = (acc ++ map scored rows)%list.
Proof.
  revert acc. induction rows as [|row rows IH]; intros acc; simpl.
  - rewrite app_nil_r. reflexivity.
  - rewrite IH. unfold on_data. rewrite <- app_assoc. reflexivity.
Qed.


Lemma Promise_all_Some {A} (ps : list (option A)) (l : list A) :
  Promise_all ps = Some l <-> ps = map Some l.
Proof.
  revert l. induction ps as [|[a|] ps IH]; intros l; simpl.
  - destruct l; simpl; split; congruence.
  - destruct (Promise_all ps) as [l'|] eqn:E.
    + split.
      * intros H. injection H as <-. simpl. f_equal. apply IH. reflexivity.
      * destruct l as [|b l]; simpl; [discriminate|].
        intros H. injection H as -> H. apply IH in H. congruence.
    + split; [discriminate|].
      destruct l as [|b l]; simpl; [discriminate|].
      intros H. injection H as -> H. apply IH in H. discriminate.
  - split; [discriminate|]. destruct l; simpl; discriminate.
Qed.

Lemma alt_outcomes_length completion k refs :
  length (alt_outcomes completion k refs) = length refs.
Proof.
  revert k. induction refs as [|ref refs IH]; intros k; simpl;
    [reflexivity | rewrite IH; reflexivity].
Qed.

Lemma Promise_all_suggest (refs : list (nat * Item)) (outs : list (option string)) :
  length outs = length refs ->
  Promise_all
    (zip_with (fun ref o => option_map (fun content => (fst ref, trim content)) o)
              refs outs)
  = option_map (fun texts => combine (map fst refs) (map trim texts))
               (Promise_all outs).
Proof.
  revert outs. induction refs as [|ref refs IH]; intros [|o outs] Hlen;
    simpl in *; try discriminate; try reflexivity.
  injection Hlen as Hlen. specialize (IH outs Hlen).
  destruct o as [content|]; simpl; [|reflexivity].
  rewrite IH. destruct (Promise_all outs); reflexivity.
Qed.

Lemma fold_assign_attach (results pre : list Item) (texts : list string) :
  fold_left assign
            (combine (map fst (low_from (length pre) results)) texts)
            (pre ++ results)%list
  = (pre ++ attach texts results)%list.
Proof.
  revert pre texts.
  induction results as [|item rest IH]; intros pre texts; simpl.
  - reflexivity.
  - destruct (greenScore item <? 40)%Z eqn:Hlow.
    + destruct texts as [|t texts]; simpl; [reflexivity|].
      unfold assign at 2. simpl.
      replace (length pre) with (length pre + 0)%nat at 2 by lia.
      rewrite alter_app_r. simpl.
      specialize (IH (pre ++ [set_suggestion t item])%list texts).
      rewrite length_app in IH. simpl in IH.
      replace (length pre + 1)%nat with (S (length pre)) in IH by lia.
      rewrite <- app_assoc in IH. simpl in IH. rewrite IH.
      rewrite <- app_assoc. reflexivity.
    + specialize (IH (pre ++ [item])%list texts).
      rewrite length_app in IH. simpl in IH.
      replace (length pre + 1)%nat with (S (length pre)) in IH by lia.
      rewrite <- app_assoc in IH. simpl in IH. rewrite IH.
      rewrite <- app_assoc. reflexivity.
Qed.

Lemma attach_length (texts : list string) (results : list Item) :
  length (attach texts results) = length results.
Proof.
  revert texts. induction results as [|item rest IH]; intros texts; simpl.
  - reflexivity.
  - destruct (greenScore item <? 40)%Z.
    + destruct texts; simpl; [reflexivity | rewrite IH; reflexivity].
    + simpl. rewrite IH. reflexivity.
Qed.

(** What [attach] does at one position: the score stays; an item at 40 or
    above stays as it is; an item below 40 stays or gets a suggestion. *)
Lemma attach_lookup (texts : list string) (results : list Item) (i : nat) (item : Item) :
  attach texts results !! i = Some item ->
  exists orig,
    results !! i = Some orig /\
    greenScore item = greenScore orig /\
    (40 <= greenScore orig -> item = orig) /\
    (item = orig \/ exists t, In t texts /\ item = set_suggestion t orig).
Proof.
  revert texts i. induction results as [|r rest IH]; intros texts i; simpl.
  - intros H. discriminate.
  - destruct (greenScore r <? 40)%Z eqn:Hlow.
    + destruct texts as [|t texts].
      * intros H. exists item. repeat split; auto.
      * destruct i as [|i]; simpl.
        -- intros H. injection H as <-. exists r.
           repeat split; simpl; auto.
           ++ apply Z.ltb_lt in Hlow. lia.
           ++ right. exists t. split; [left|]; reflexivity.
        -- intros H. destruct (IH _ _ H) as (orig & H1 & H2 & H3 & H4).
           exists orig. repeat split; auto.
           destruct H4 as [H4|(t' & Hin & H4)]; [left; assumption|].
           right. exists t'. split; [right|]; assumption.
    + destruct i as [|i]; simpl.
      * intros H. injection H as <-. exists r. repeat split; auto.
      * intros H. apply (IH _ _ H).
Qed.

(** With one text per low-scoring item, every item below 40 gets one. *)
Lemma attach_lookup_low (texts : list string) (results : list Item) (i : nat) (orig : Item) :
  length texts = length (lowScoringItems results) ->
  results !! i = Some orig ->
  greenScore orig < 40 ->
  exists t, In t texts /\ attach texts results !! i = Some (set_suggestion t orig).
Proof.
  unfold lowScoringItems. generalize 0%nat as k.
  revert texts i. induction results as [|r rest IH]; intros texts i k; simpl.
  - intros _ H. discriminate.
  - destruct (greenScore r <? 40)%Z eqn:Hlow.
    + destruct texts as [|t texts]; simpl; [discriminate|].
      intros Hlen. injection Hlen as Hlen.
      destruct i as [|i]; simpl.
      * intros H _. injection H as <-. exists t. split; [left|]; reflexivity.
      * intros H Hs. destruct (IH _ _ _ Hlen H Hs) as (t' & Hin & Ht).
        exists t'. split; [right|]; assumption.
    + intros Hlen. destruct i as [|i]; simpl.
      * intros H Hs. injection H as <-. apply Z.ltb_ge in Hlow. lia.
      * intros H Hs. apply (IH _ _ _ Hlen H Hs).
Qed.

Section Handlers.

Context (verifyIdToken : string -> option DecodedToken)
        (csv : (string -> string) -> string -> option (list Row))
        (completion : nat -> string -> Z -> option string)
        (firestore_up : nat -> bool)
        (firestore_id : nat -> string)
        (serverTimestamp : nat -> Z)
        (toISOString : Z -> string).

Lemma mapM_suggest (refs : list (nat * Item)) (w : World) :
  mapM (suggest completion) refs w =
  (Returned
     (zip_with (fun ref o => option_map (fun content => (fst ref, trim content)) o)
               refs (alt_outcomes completion (completion_calls w) refs)),
   {| analyses := analyses w;
      storage_calls := storage_calls w;
      completion_calls := completion_calls w + length refs |}).
Proof.
  revert w. induction refs as [|ref refs IH]; intros w; simpl.
  - unfold ret. destruct w; simpl. rewrite Nat.add_0_r. reflexivity.
  - unfold bind at 1. unfold suggest at 1.
    unfold bind at 1. unfold chat_completions_create at 1. simpl.
    unfold bind at 1. rewrite IH. simpl.
    unfold ret. do 2 f_equal. lia.
Qed.

(** The [end] listener, case by case. *)
Lemma on_end_run (user : DecodedToken) (f : File) (results : list Item) (w : World) :
  on_end completion firestore_up firestore_id serverTimestamp user f results w =
  let c := completion_calls w in
  match completion c (summaryPrompt results) 100 with
  | None =>
      (Returned ai_error,
       {| analyses := analyses w; storage_calls := storage_calls w;
          completion_calls := S c |})
  | Some content =>
      let refs := lowScoringItems results in
      match Promise_all (alt_outcomes completion (S c) refs) with
      | None =>
          (Returned ai_error,
           {| analyses := analyses w; storage_calls := storage_calls w;
              completion_calls := S c + length refs |})
      | Some texts =>
          let results' := attach (map trim texts) results in
          let fr := {| fileName := originalname f;
                       averageScore := average results';
                       summary := trim content;
                       items := results' |} in
          if firestore_up (storage_calls w) then
            (Returned (res_json (ResultBody fr)),
             {| analyses :=
                  (analyses w ++
                   [{| doc_id := firestore_id (storage_calls w);
                       doc_data := fr; userId := uid user;
                       createdAt := serverTimestamp (storage_calls w) |}])%list;
                storage_calls := S (storage_calls w);
                completion_calls := S c + length refs |})
          else
            (Returned ai_error,
             {| analyses := analyses w;
                storage_calls := S (storage_calls w);
                completion_calls := S c + length refs |})
      end
  end.
Proof.
  unfold on_end, try_catch.
  unfold bind at 1. unfold bind at 1.
  unfold chat_completions_create at 1. simpl.
  destruct (completion (completion_calls w) (summaryPrompt results) 100)
    as [content|]; simpl; [|reflexivity].
  unfold bind at 1. rewrite mapM_suggest. simpl.
  unfold bind at 1.
  rewrite Promise_all_suggest by apply alt_outcomes_length.
  destruct (Promise_all (alt_outcomes completion (S (completion_calls w))
                                       (lowScoringItems results)))
    as [texts|]; simpl; [|reflexivity].
  unfold lowScoringItems.
  pose proof (fold_assign_attach results [] (map trim texts)) as Hfold.
  simpl in Hfold. rewrite Hfold.
  unfold bind, collection_add. simpl.
  destruct (firestore_up (storage_calls w)); reflexivity.
Qed.


Lemma upload_run (user : DecodedToken) (f : File) (rows : list Row) (w : World) :
  csv toLowerCase (buffer f) = Some rows ->
  upload csv completion firestore_up firestore_id serverTimestamp
         {| currentUser := Some user; file := Some f |} w
  = on_end completion firestore_up firestore_id serverTimestamp
           user f (map scored rows) w.
Proof.
  intros Hcsv. unfold upload. simpl. rewrite Hcsv.
  rewrite on_data_fold. reflexivity.
Qed.


(** C4, as the code has it: an authenticated upload without a file is
    answered 400 "No file uploaded." and changes nothing: no completion
    request, no Firestore call.  An upload whose file is present, empty
    or not, is never answered 400: it goes to the parser, and the answer
    is 200 or 500. *)
Theorem C4_absent_file_is_bad_request (user : DecodedToken) (w : World) :
  upload csv completion firestore_up firestore_id serverTimestamp
         {| currentUser := Some user; file := None |} w
  = (Returned (res_status_json 400 (ErrorBody "No file uploaded.")), w) /\
  forall f : File,
    exists (resp : Response) (w' : World),
      upload csv completion firestore_up firestore_id serverTimestamp
             {| currentUser := Some user; file := Some f |} w
      = (Returned resp, w') /\
      (status resp = 200 \/ status resp = 500).
Proof.
  split; [reflexivity|].
  intros f. destruct (csv toLowerCase (buffer f)) as [rows|] eqn:Hcsv.
  - rewrite (upload_run _ _ _ _ Hcsv), on_end_run. cbv zeta.
    destruct (completion _ _ _); [|eexists _, _; split; [reflexivity|right; reflexivity]].
    destruct (Promise_all _); [|eexists _, _; split; [reflexivity|right; reflexivity]].
    destruct (firestore_up _); eexists _, _; (split; [reflexivity|]);
      [left|right]; reflexivity.
  - unfold upload. simpl. rewrite Hcsv.
    eexists _, _. split; [reflexivity|right; reflexivity].
Qed.

(** C7, as the code has it: in a successful result the items are the
    CSV rows in order, each with its score.  An item whose score is 40 or
    more is its CSV row unchanged, so its suggestion property is that of
    the row: missing unless the file has a column named suggestion.
    An item whose score is below 40 is its row with the suggestion
    property set. *)
Theorem C7_suggestion_attached_below_40_only
        (user : DecodedToken) (f : File) (rows : list Row)
        (w : World) (fr : FinalResult) :
  csv toLowerCase (buffer f) = Some rows ->
  fst (upload csv completion firestore_up firestore_id serverTimestamp
              {| currentUser := Some user; file := Some f |} w)
  = Returned (res_json (ResultBody fr)) ->
  length (items fr) = length rows /\
  forall (i : nat) (item : Item),
    items fr !! i = Some item ->
    exists row : Row,
      rows !! i = Some row /\
      greenScore item = calculateGreenScore (Some row) /\
      (40 <= greenScore item ->
       columns item = row /\
       columns item !! "suggestion" = row !! "suggestion") /\
      (greenScore item < 40 ->
       exists text : string, columns item = <["suggestion" := text]> row).
Proof.
  intros Hcsv. rewrite (upload_run _ _ _ _ Hcsv), on_end_run. cbv zeta.
  destruct (completion _ _ _) as [content|]; [|discriminate].
  destruct (Promise_all _) as [texts|] eqn:Hall; [|discriminate].
  destruct (firestore_up _); [|discriminate].
  simpl. intros H. injection H as <-. simpl.
  apply Promise_all_Some in Hall.
  assert (Hlen : length (map trim texts)
                 = length (lowScoringItems (map scored rows))).
  { rewrite length_map, <- (length_map Some texts), <- Hall.
    apply alt_outcomes_length. }
  split; [rewrite attach_length, length_map; reflexivity|].
  intros i item Hi.
  destruct (attach_lookup _ _ _ _ Hi) as (orig & Ho & Hs & Hge & _).
  rewrite list_lookup_fmap in Ho.
  destruct (rows !! i) as [row|] eqn:Hrow; [|discriminate].
  simpl in Ho. injection Ho as <-. simpl in *.
  exists row. split; [reflexivity|]. split; [assumption|]. split.
  - intros H40. rewrite Hs in H40. rewrite (Hge H40). simpl. auto.
  - intros Hlow. rewrite Hs in Hlow.
    assert (Ho : map scored rows !! i = Some (scored row))
      by (rewrite list_lookup_fmap, Hrow; reflexivity).
    destruct (attach_lookup_low _ _ _ _ Hlen Ho Hlow) as (t & _ & Ht).
    rewrite Ht in Hi. injection Hi as <-. exists t. reflexivity.
Qed.

(** When the middleware leaves no current user. *)
Lemma no_header_no_user (req : HttpRequest) :
  authorization req = None ->
  currentUser (decodeIDToken verifyIdToken req) = None.
Proof. intros H. unfold decodeIDToken. simpl. rewrite H. reflexivity. Qed.

Lemma not_bearer_no_user (req : HttpRequest) (header : string) :
  authorization req = Some header ->
  startsWith header "Bearer " = false ->
  currentUser (decodeIDToken verifyIdToken req) = None.
Proof.
  intros H Hb. unfold decodeIDToken. simpl. rewrite H, Hb. reflexivity.
Qed.

Lemma rejected_token_no_user (req : HttpRequest) :
  (forall idToken : string, verifyIdToken idToken = None) ->
  currentUser (decodeIDToken verifyIdToken req) = None.
Proof.
  intros Hrej. unfold decodeIDToken. simpl.
  destruct (authorization req) as [header|]; [|reflexivity].
  destruct (startsWith header "Bearer "); [|reflexivity].
  destruct (split_1 header "Bearer "); [apply Hrej|reflexivity].
Qed.

(** The average a successful upload reports is the average of the items
    it reports. *)
Lemma result_average (user : DecodedToken) (f : File) (w : World) (fr : FinalResult) :
  fst (upload csv completion firestore_up firestore_id serverTimestamp
              {| currentUser := Some user; file := Some f |} w)
  = Returned (res_json (ResultBody fr)) ->
  averageScore fr = average (items fr).
Proof.
  destruct (csv toLowerCase (buffer f)) as [rows|] eqn:Hcsv.
  - rewrite (upload_run _ _ _ _ Hcsv), on_end_run. cbv zeta.
    destruct (completion _ _ _); [|discriminate].
    destruct (Promise_all _); [|discriminate].
    destruct (firestore_up _); [|discriminate].
    simpl. intros H. injection H as <-. reflexivity.
  - unfold upload. simpl. rewrite Hcsv. discriminate.
Qed.

(** C8: a request in which the middleware left no current user, because
    the Authorization header is missing, is no Bearer header, or carries
    a token the identity provider rejects, is answered 401 by both
    routes and leaves the world as it was: no Firestore call, no
    completion request, nothing stored. *)
Theorem C8_unauthorized_touches_nothing
        (route : Route) (req : HttpRequest) (w : World) :
  currentUser (decodeIDToken verifyIdToken req) = None ->
  exists error : string,
    app verifyIdToken csv completion firestore_up firestore_id
        serverTimestamp toISOString route req w
    = (Returned (res_status_json 401 (ErrorBody error)), w).
Proof.
  intros Hnone. destruct route; unfold app, upload, history;
    rewrite Hnone; eexists; reflexivity.
Qed.


(** *** History *)

Lemma insert_desc_perm (d : Doc) (docs : list Doc) :
  Permutation (d :: docs) (insert_desc d docs).
Proof.
  induction docs as [|e docs IH]; simpl.
  - apply Permutation_refl.
  - destruct (createdAt e <? createdAt d)%Z.
    + apply Permutation_refl.
    + eapply perm_trans; [apply perm_swap|]. apply perm_skip, IH.
Qed.

Lemma orderBy_perm (docs : list Doc) :
  Permutation docs (orderBy_createdAt_desc docs).
Proof.
  induction docs as [|d docs IH]; simpl.
  - apply perm_nil.
  - eapply perm_trans; [apply perm_skip, IH|]. apply insert_desc_perm.
Qed.

Lemma insert_desc_hd (d e : Doc) (docs : list Doc) :
  not_older e d -> HdRel not_older e docs ->
  HdRel not_older e (insert_desc d docs).
Proof.
  intros Hed Hhd. destruct docs as [|x docs]; simpl.
  - constructor. assumption.
  - destruct (createdAt x <? createdAt d)%Z; constructor.
    + assumption.
    + inversion Hhd; assumption.
Qed.

Lemma insert_desc_sorted (d : Doc) (docs : list Doc) :
  Sorted not_older docs -> Sorted not_older (insert_desc d docs).
Proof.
  induction docs as [|e docs IH]; intros Hs; simpl.
  - repeat constructor.
  - inversion Hs as [|? ? Hs' Hhd]; subst.
    destruct (createdAt e <? createdAt d)%Z eqn:Hlt.
    + constructor; [assumption|]. constructor.
      unfold not_older. apply Z.ltb_lt in Hlt. lia.
    + constructor; [apply IH; assumption|].
      apply insert_desc_hd; [|assumption].
      unfold not_older. apply Z.ltb_ge in Hlt. assumption.
Qed.

Lemma orderBy_sorted (docs : list Doc) :
  StronglySorted not_older (orderBy_createdAt_desc docs).
Proof.
  apply Sorted_StronglySorted.
  - intros a b c. unfold not_older. lia.
  - induction docs as [|d docs IH]; simpl.
    + constructor.
    + apply insert_desc_sorted, IH.
Qed.

Lemma where_userId_In (owner : string) (docs : list Doc) (d : Doc) :
  In d (where_userId owner docs) <-> In d docs /\ userId d = owner.
Proof.
  unfold where_userId. rewrite filter_In.
  split; intros [H1 H2]; (split; [assumption|]);
    apply String.eqb_eq; assumption.
Qed.

Lemma history_run (user : DecodedToken) (fl : option File) (w : World) :
  history firestore_up toISOString {| currentUser := Some user; file := fl |} w
  = (Returned
       (if firestore_up (storage_calls w) then
          res_json (HistoryBody
                      (map (history_entry toISOString)
                           (orderBy_createdAt_desc
                              (where_userId (uid user) (analyses w)))))
        else res_status_json 500 (ErrorBody "Failed to fetch analysis history.")),
     {| analyses := analyses w;
        storage_calls := S (storage_calls w);
        completion_calls := completion_calls w |}).
Proof.
  unfold history, try_catch, bind, query_get. simpl.
  destruct (firestore_up (storage_calls w)); [|reflexivity].
  destruct (orderBy_createdAt_desc _); reflexivity.
Qed.

(** C9: for an authenticated caller whose query Firestore answers, the
    history response is 200 with one entry per stored analysis whose
    [userId] is the caller's [uid] and no other, in the order of
    [createdAt], newest first.  Each entry carries the document's id, its
    stored result, its [userId] and its [createdAt] as text.  The response
    is 200 with the empty array when the caller owns none, and the
    collection is left as it was. *)
Theorem C9_history_owned_newest_first
        (user : DecodedToken) (fl : option File) (w : World) :
  firestore_up (storage_calls w) = true ->
  let run :=
    history firestore_up toISOString
            {| currentUser := Some user; file := fl |} w in
  exists docs : list Doc,
    fst run
    = Returned
        {| status := 200;
           body :=
             HistoryBody
               (map (fun d : Doc =>
                       {| id := doc_id d;
                          entry_data := doc_data d;
                          entry_userId := userId d;
                          entry_createdAt := toISOString (createdAt d) |})
                    docs) |} /\
    Permutation docs (where_userId (uid user) (analyses w)) /\
    (forall d : Doc, In d docs <-> In d (analyses w) /\ userId d = uid user) /\
    StronglySorted not_older docs /\
    ((forall d : Doc, In d (analyses w) -> userId d <> uid user) ->
     docs = [] /\
     fst run = Returned {| status := 200; body := HistoryBody [] |}) /\
    analyses (snd run) = analyses w.
Proof.
  intros Hup run. subst run. rewrite history_run, Hup. simpl.
  exists (orderBy_createdAt_desc (where_userId (uid user) (analyses w))).
  assert (Hperm := orderBy_perm (where_userId (uid user) (analyses w))).
  split; [reflexivity|]. split; [apply Permutation_sym, Hperm|].
  split; [|split; [apply orderBy_sorted|split; [|reflexivity]]].
  - intros d. rewrite <- where_userId_In. split; intros Hin.
    + eapply Permutation_in; [apply Permutation_sym, Hperm|assumption].
    + eapply Permutation_in; [apply Hperm|assumption].
  - intros Hnone.
    destruct (orderBy_createdAt_desc _) as [|d docs] eqn:E;
      [split; reflexivity|].
    exfalso. assert (Hin : In d (where_userId (uid user) (analyses w))).
    { eapply Permutation_in; [apply Permutation_sym, Hperm|left; reflexivity]. }
    apply where_userId_In in Hin. destruct Hin as [Hin Hu].
    exact (Hnone d Hin Hu).
Qed.

End Handlers.

(** ** The average *)

Lemma totalScore_sum (results : list Item) :
  totalScore results = sum_scores (map greenScore results).
Proof.
  unfold totalScore, sum_scores.
  assert (H : forall acc : Z,
             fold_left (fun a item => a + greenScore item) results acc
             = acc + fold_right Z.add 0 (map greenScore results)).
  { induction results as [|item rest IH]; intros acc; simpl.
    - lia.
    - rewrite IH. lia. }
  rewrite H. lia.
Qed.

Lemma Math_round_rounds (q : Q) : rounds_to q (Math_round q).
Proof.
  unfold rounds_to, Math_round.
  pose proof (Qfloor_le (q + (1 # 2))) as Hle.
  pose proof (Qlt_floor (q + (1 # 2))) as Hlt.
  rewrite inject_Z_plus in Hlt. change (inject_Z 1) with 1%Q in Hlt.
  generalize dependent (inject_Z (Qfloor (q + (1 # 2)))). intros m Hle Hlt.
  split; lra.
Qed.

(** C6: the average of an empty list of scored rows is 0, with no
    division; the average of a non-empty list is the arithmetic mean of the
    rows' [greenScore] values rounded to the nearest integer (a half going
    up). *)
Theorem C6_average_is_rounded_mean (results : list Item) :
  (results = [] -> average results = 0) /\
  (results <> [] -> rounds_to (mean (map greenScore results)) (average results)).
Proof.
  split.
  - intros ->. reflexivity.
  - intros Hne. unfold average, mean.
    destruct results as [|item rest]; [congruence|].
    rewrite length_map, totalScore_sum.
    replace (0 <? Z.of_nat (length (item :: rest)))%Z with true
      by (symmetry; apply Z.ltb_lt; simpl; lia).
    apply Math_round_rounds.
Qed.

(** ** Concrete runs *)



Lemma C4_counterexample :
  let run := Demo.upload_ok
               (Demo.by_alice (Some (Demo.file_of "empty.csv" EmptyString)))
               Demo.world0 in
  Demo.status_of (fst run) = Some 200 /\
  Demo.scores_of (fst run) = Some ([], 0) /\
  completion_calls (snd run) = 1%nat /\
  storage_calls (snd run) = 1%nat /\
  length (analyses (snd run)) = 1%nat.
Proof. cbv zeta. repeat split; vm_compute; reflexivity. Qed.

Lemma C6_witness :
  let results := map scored (Demo.rows_of Demo.readme_csv) in
  results <> [] /\
  average results = 47 /\
  rounds_to (mean (map greenScore results)) (average results).
Proof.
  cbv zeta.
  assert (H : map scored (Demo.rows_of Demo.readme_csv) <> [])
    by (vm_compute; discriminate).
  split; [exact H|]. split; [vm_compute; reflexivity|].
  exact (proj2 (C6_average_is_rounded_mean _) H).
Defined.

Lemma C7_counterexample :
  let run := Demo.upload_ok
               (Demo.by_alice (Some (Demo.file_of "s.csv" Demo.suggestion_csv)))
               Demo.world0 in
  Demo.status_of (fst run) = Some 200 /\
  Demo.scores_of (fst run) = Some ([60], 60) /\
  Demo.suggestions_of (fst run) = Some [Some "keep buying these"].
Proof. cbv zeta. repeat split; vm_compute; reflexivity. Qed.

Lemma C7_witness :
  let rows := Demo.rows_of Demo.readme_csv in
  let fr := Demo.result_of
              (fst (Demo.upload_ok
                      (Demo.by_alice (Some (Demo.file_of "p.csv" Demo.readme_csv)))
                      Demo.world0)) in
  length (items fr) = length rows /\
  forall (i : nat) (item : Item),
    items fr !! i = Some item ->
    exists row : Row,
      rows !! i = Some row /\
      greenScore item = calculateGreenScore (Some row) /\
      (40 <= greenScore item ->
       columns item = row /\
       columns item !! "suggestion" = row !! "suggestion") /\
      (greenScore item < 40 ->
       exists text : string, columns item = <["suggestion" := text]> row).
Proof.
  refine (C7_suggestion_attached_below_40_only
            CsvParser.parse Demo.completion_ok
            Demo.firestore_up Demo.firestore_id Demo.serverTimestamp
            Demo.alice (Demo.file_of "p.csv" Demo.readme_csv)
            (Demo.rows_of Demo.readme_csv) Demo.world0 _ _ _).
  - vm_compute. reflexivity.
  - vm_compute. reflexivity.
Defined.

Lemma C8_witness :
  let req := {| authorization := Some "Bearer mallory-token";
                upload_file := Some (Demo.file_of "p.csv" Demo.readme_csv) |} in
  currentUser (decodeIDToken Demo.verifyIdToken req) = None /\
  exists error : string,
    Demo.app_ok POST_api_upload req Demo.world0
    = (Returned (res_status_json 401 (ErrorBody error)), Demo.world0).
Proof.
  cbv zeta. split; [vm_compute; reflexivity|].
  apply C8_unauthorized_touches_nothing.
  vm_compute. reflexivity.
Defined.

Lemma C9_witness :
  let run := history Demo.firestore_up Demo.toISOString
                     (Demo.by_alice None) Demo.world_history in
  Demo.firestore_up (storage_calls Demo.world_history) = true /\
  exists docs : list Doc,
    fst run
    = Returned
        {| status := 200;
           body :=
             HistoryBody
               (map (fun d : Doc =>
                       {| id := doc_id d;
                          entry_data := doc_data d;
                          entry_userId := userId d;
                          entry_createdAt := Demo.toISOString (createdAt d) |})
                    docs) |} /\
    Permutation docs (where_userId "alice" (analyses Demo.world_history)) /\
    (forall d : Doc,
        In d docs <-> In d (analyses Demo.world_history) /\ userId d = "alice") /\
    StronglySorted not_older docs /\
    ((forall d : Doc, In d (analyses Demo.world_history) -> userId d <> "alice") ->
     docs = [] /\
     fst run = Returned {| status := 200; body := HistoryBody [] |}) /\
    analyses (snd run) = analyses Demo.world_history.
Proof.
  cbv zeta. split; [reflexivity|].
  apply (C9_history_owned_newest_first
           Demo.firestore_up Demo.toISOString Demo.alice None Demo.world_history).
  reflexivity.
Defined.

Example history_order :
  fst (history Demo.firestore_up Demo.toISOString
               (Demo.by_alice None) Demo.world_history)
  = Returned
      (res_json
         (HistoryBody
            (map (history_entry Demo.toISOString)
                 [Demo.doc_of "a2" "alice" 30; Demo.doc_of "a3" "alice" 20;
                  Demo.doc_of "a1" "alice" 10]))).
Proof. vm_compute. reflexivity. Qed.

(** * Further properties of the server *)

(** ** Strings *)

Lemma append_assoc (a b c : string) : (a ++ b) ++ c = a ++ (b ++ c).
Proof.
  induction a as [|x a IH]; [reflexivity|].
  change (String x ((a ++ b) ++ c) = String x (a ++ b ++ c)).
  f_equal. exact IH.
Qed.

Lemma append_empty_r (a : string) : a ++ EmptyString = a.
Proof.
  induction a as [|x a IH]; [reflexivity|].
  change (String x (a ++ EmptyString) = String x a).
  f_equal. exact IH.
Qed.

Lemma startsWith_spec (s p : string) :
  startsWith s p = true <-> exists post : string, s = p ++ post.
Proof.
  revert s. induction p as [|a p IH]; intros s; simpl.
  - split; [intros _; exists s; reflexivity | destruct s; reflexivity].
  - destruct s as [|b s].
    + split; [discriminate | intros [post H]; discriminate].
    + simpl. rewrite andb_true_iff, Ascii.eqb_eq, IH. split.
      * intros [-> [post ->]]. exists post. reflexivity.
      * intros [post H]. injection H as -> ->. split; [reflexivity|].
        exists post. reflexivity.
Qed.

Lemma includes_nil (sub : string) :
  includes EmptyString sub = startsWith EmptyString sub.
Proof. unfold includes. apply orb_false_r. Qed.

Lemma includes_cons (c : ascii) (s sub : string) :
  includes (String c s) sub = startsWith (String c s) sub || includes s sub.
Proof. reflexivity. Qed.

Lemma includes_spec (s sub : string) :
  includes s sub = true <-> exists pre post : string, s = pre ++ sub ++ post.
Proof.
  induction s as [|c s IH].
  - rewrite includes_nil, startsWith_spec. split.
    + intros [post H]. exists EmptyString, post. assumption.
    + intros ([|x pre] & post & H); [|discriminate].
      exists post. assumption.
  - rewrite includes_cons, orb_true_iff, IH, startsWith_spec. split.
    + intros [[post H]|(pre & post & H)].
      * exists EmptyString, post. assumption.
      * exists (String c pre), post. simpl. rewrite H. reflexivity.
    + intros ([|x pre] & post & H).
      * left. exists post. assumption.
      * right. simpl in H. injection H as -> ->. exists pre, post. reflexivity.
Qed.

Lemma includes_trans (s a b : string) :
  includes s a = true -> includes a b = true -> includes s b = true.
Proof.
  rewrite !includes_spec.
  intros (pre & post & ->) (pre' & post' & ->).
  exists (pre ++ pre'), (post' ++ post).
  rewrite !append_assoc. reflexivity.
Qed.

Lemma lower_unit_idem (c : ascii) : lower_unit (lower_unit c) = lower_unit c.
Proof. destruct c as [[] [] [] [] [] [] [] []]; reflexivity. Qed.

Lemma toLowerCase_idem (s : string) : toLowerCase (toLowerCase s) = toLowerCase s.
Proof.
  induction s as [|c s IH]; simpl;
    [reflexivity | rewrite lower_unit_idem, IH; reflexivity].
Qed.

(** ** More on the scoring function *)

(** The score of a row with a product value, as the nine rules give it. *)
Ltac score_of_row H :=
  unfold calculateGreenScore; rewrite H; cbv zeta.

Ltac split_rules :=
  repeat match goal with
         | |- context [includes ?n ?k] => destruct (includes n k) eqn:?
         end.

(** X1: the keyword rules do not see letter case.  Two rows whose product
    texts are equal once lower-cased get the same score. *)
Theorem X1_score_ignores_case (row1 row2 : Row) (p1 p2 : string) :
  row1 !! "product" = Some p1 ->
  row2 !! "product" = Some p2 ->
  toLowerCase p1 = toLowerCase p2 ->
  calculateGreenScore (Some row1) = calculateGreenScore (Some row2).
Proof.
  intros H1 H2 Heq. unfold calculateGreenScore. rewrite H1, H2.
  destruct p1 as [|c1 s1], p2 as [|c2 s2]; try reflexivity; try discriminate.
  cbv zeta. rewrite Heq. reflexivity.
Qed.

Lemma X1_witness :
  calculateGreenScore (Some {["product" := "RECYCLED Plastic CUPS"; "qty" := "3"]}) =
  calculateGreenScore (Some {["product" := "recycled plastic cups"]}).
Proof.
  apply (X1_score_ignores_case _ _ "RECYCLED Plastic CUPS" "recycled plastic cups");
    vm_compute; reflexivity.
Defined.

(** X2: the rule for "recycled" never fires alone.  The text "recycled"
    ends in "led", so a product naming "recycled" also gets the 10 points
    of "led": with none of the words plastic, disposable and single-use it
    scores at least 80. *)
Theorem X2_recycled_brings_led (row : Row) (p : string) :
  row !! "product" = Some p ->
  includes (toLowerCase p) "recycled" = true ->
  includes (toLowerCase p) "led" = true /\
  (includes (toLowerCase p) "plastic" = false ->
   includes (toLowerCase p) "disposable" = false ->
   includes (toLowerCase p) "single-use" = false ->
   80 <= calculateGreenScore (Some row)).
Proof.
  intros Hp Hrec.
  assert (Hled : includes (toLowerCase p) "led" = true)
    by (apply (includes_trans _ "recycled"); [assumption | reflexivity]).
  split; [assumption|]. intros Hpl Hdi Hsu.
  score_of_row Hp.
  destruct p as [|c s]; [discriminate Hrec|].
  rewrite Hrec, Hled, Hpl, Hdi, Hsu. split_rules; simpl; lia.
Qed.

Lemma X2_witness :
  includes (toLowerCase "Recycled Toner") "led" = true /\
  80 <= calculateGreenScore (Some {["product" := "Recycled Toner"]}).
Proof.
  pose proof (X2_recycled_brings_led {["product" := "Recycled Toner"]}
                "Recycled Toner" eq_refl eq_refl) as [Hled H].
  split; [exact Hled | exact (H eq_refl eq_refl eq_refl)].
Defined.

(** X3: a row that has a product value scores below 40 only if a penalty
    rule fired: its product names plastic without reusable, or disposable,
    or single-use.  A product with none of these scores at least 50. *)
Theorem X3_low_score_needs_penalty (row : Row) (p : string) :
  row !! "product" = Some p ->
  p <> EmptyString ->
  (calculateGreenScore (Some row) < 40 ->
   includes (toLowerCase p) "plastic" = true /\
   includes (toLowerCase p) "reusable" = false \/
   includes (toLowerCase p) "disposable" = true \/
   includes (toLowerCase p) "single-use" = true) /\
  (includes (toLowerCase p) "plastic" = false ->
   includes (toLowerCase p) "disposable" = false ->
   includes (toLowerCase p) "single-use" = false ->
   50 <= calculateGreenScore (Some row)).
Proof.
  intros Hp Hne. score_of_row Hp.
  destruct p as [|c s]; [congruence|].
  split.
  - split_rules; simpl; intros Hlow; try lia; auto.
  - intros Hpl Hdi Hsu. rewrite Hpl, Hdi, Hsu. split_rules; simpl; lia.
Qed.

Lemma X3_witness :
  50 <= calculateGreenScore (Some {["product" := "Office Chairs"]}).
Proof.
  refine (proj2 (X3_low_score_needs_penalty {["product" := "Office Chairs"]}
                   "Office Chairs" eq_refl _) eq_refl eq_refl eq_refl).
  discriminate.
Defined.

(** X4: every score is a multiple of 5. *)
Theorem X4_score_multiple_of_5 (item : option Row) :
  exists k : Z, calculateGreenScore item = 5 * k.
Proof.
  unfold calculateGreenScore.
  destruct item as [row|]; [|exists 0; reflexivity].
  destruct (row !! "product") as [[|c s]|]; try (exists 0; reflexivity).
  cbv zeta. split_rules; simpl;
    match goal with
    | |- exists k, ?n = 5 * k => exists (n / 5); reflexivity
    end.
Qed.

(** ** More on the upload route *)

Lemma low_from_count (rows : list Row) (i : nat) :
  length (low_from i (map scored rows)) =
  length (List.filter (fun row => (calculateGreenScore (Some row) <? 40)%Z) rows).
Proof.
  revert i. induction rows as [|row rows IH]; intros i; [reflexivity|].
  cbn [map low_from List.filter].
  change (greenScore (scored row)) with (calculateGreenScore (Some row)).
  destruct (calculateGreenScore (Some row) <? 40)%Z; cbn [length];
    rewrite IH; reflexivity.
Qed.

Lemma attach_scores (texts : list string) (results : list Item) :
  map greenScore (attach texts results) = map greenScore results.
Proof.
  revert texts. induction results as [|item rest IH]; intros texts; simpl.
  - reflexivity.
  - destruct (greenScore item <? 40)%Z.
    + destruct texts; simpl; [reflexivity | rewrite IH; reflexivity].
    + simpl. rewrite IH. reflexivity.
Qed.

Lemma average_scores (results results' : list Item) :
  map greenScore results = map greenScore results' ->
  average results = average results'.
Proof.
  intros H. unfold average. rewrite !totalScore_sum, H.
  rewrite <- (length_map greenScore results), H, length_map. reflexivity.
Qed.

Lemma sum_scores_range (scores : list Z) :
  Forall (fun x => 0 <= x <= 100) scores ->
  0 <= sum_scores scores <= 100 * Z.of_nat (length scores).
Proof.
  induction 1 as [|x l Hx _ IH]; simpl; [lia|].
  unfold sum_scores in *. simpl. lia.
Qed.

Lemma Math_round_range (t n : Z) :
  0 < n -> 0 <= t <= 100 * n ->
  0 <= Math_round (inject_Z t / inject_Z n) <= 100.
Proof.
  intros Hn Ht. unfold Math_round.
  assert (Hn' : (0 < inject_Z n)%Q) by (rewrite <- (Zlt_Qlt 0); assumption).
  assert (H0 : (0 <= inject_Z t / inject_Z n)%Q).
  { apply Qle_shift_div_l; [assumption|]. rewrite Qmult_0_l.
    rewrite <- (Zle_Qle 0). lia. }
  assert (H1 : (inject_Z t / inject_Z n <= 100)%Q).
  { apply Qle_shift_div_r; [assumption|].
    change 100%Q with (inject_Z 100). rewrite <- inject_Z_mult, <- Zle_Qle. lia. }
  split.
  - change 0 with (Qfloor 0). apply Qfloor_resp_le. lra.
  - change 100 with (Qfloor (100 + (1 # 2))). apply Qfloor_resp_le. lra.
Qed.

Lemma average_range (results : list Item) :
  Forall (fun item => 0 <= greenScore item <= 100) results ->
  0 <= average results <= 100.
Proof.
  intros Hall. unfold average.
  destruct (0 <? Z.of_nat (length results))%Z eqn:Hlen; [|lia].
  apply Z.ltb_lt in Hlen. apply Math_round_range; [assumption|].
  rewrite totalScore_sum, <- (length_map greenScore results).
  apply sum_scores_range. apply Forall_map. assumption.
Qed.

Lemma scored_range (rows : list Row) :
  Forall (fun item => 0 <= greenScore item <= 100) (map scored rows).
Proof.
  apply Forall_map. apply Forall_forall. intros row _. apply score_range.
Qed.

Section Pipeline.

Context (verifyIdToken : string -> option DecodedToken)
        (csv : (string -> string) -> string -> option (list Row))
        (completion : nat -> string -> Z -> option string)
        (firestore_up : nat -> bool)
        (firestore_id : nat -> string)
        (serverTimestamp : nat -> Z)
        (toISOString : Z -> string).

Local Abbreviation upload_by user f :=
  (upload csv completion firestore_up firestore_id serverTimestamp
          {| currentUser := Some user; file := Some f |}).

(** The upload of a file by an authenticated caller, case by case. *)
Ltac upload_cases f :=
  let Hcsv := fresh "Hcsv" in
  destruct (csv toLowerCase (buffer f)) as [rows|] eqn:Hcsv;
  [ rewrite (upload_run _ _ _ _ _ _ _ _ _ Hcsv), on_end_run; cbv zeta;
    destruct (completion _ _ _) as [content|] eqn:Hsum;
    [ destruct (Promise_all _) as [texts|] eqn:Hall;
      [ destruct (firestore_up _) eqn:Hup | ] | ]
  | unfold upload; cbn [currentUser file]; rewrite Hcsv ].

(** A successful upload appends its document and nothing else. *)
Lemma upload_success (user : DecodedToken) (f : File) (w : World) (fr : FinalResult) :
  fst (upload_by user f w) = Returned (res_json (ResultBody fr)) ->
  analyses (snd (upload_by user f w)) =
  (analyses w ++
   [stored_doc firestore_id serverTimestamp (storage_calls w) (uid user) fr])%list /\
  storage_calls (snd (upload_by user f w)) = S (storage_calls w) /\
  firestore_up (storage_calls w) = true.
Proof.
  upload_cases f; cbn [fst snd]; try discriminate.
  intros H. injection H as <-. repeat split.
Qed.

(** X5: the answer "Failed to process CSV file." is given exactly when the
    parser emits an error, and then nothing else has happened: no
    completion request, no Firestore call, nothing stored. *)
Theorem X5_csv_error_only_on_parse_failure
        (user : DecodedToken) (f : File) (w : World) :
  (csv toLowerCase (buffer f) = None ->
   upload_by user f w = (Returned csv_error, w)) /\
  (forall resp : Response,
      fst (upload_by user f w) = Returned resp ->
      body resp = ErrorBody "Failed to process CSV file." ->
      csv toLowerCase (buffer f) = None).
Proof.
  split.
  - intros Hnone. unfold upload. cbn [currentUser file]. rewrite Hnone.
    reflexivity.
  - intros resp. upload_cases f; cbn [fst]; intros H; injection H as <-;
      cbn; try discriminate. reflexivity.
Qed.

(** X6: when the summary request fails the upload is answered 500 after
    that one request: no alternative request is issued, however many rows
    score below 40, Firestore is not called and nothing is stored. *)
Theorem X6_summary_failure_stops_upload
        (user : DecodedToken) (f : File) (rows : list Row) (w : World) :
  csv toLowerCase (buffer f) = Some rows ->
  completion (completion_calls w) (summaryPrompt (map scored rows)) 100 = None ->
  upload_by user f w =
  (Returned ai_error,
   {| analyses := analyses w; storage_calls := storage_calls w;
      completion_calls := S (completion_calls w) |}).
Proof.
  intros Hcsv Hsum.
  rewrite (upload_run _ _ _ _ _ _ _ _ _ Hcsv), on_end_run. cbv zeta.
  rewrite Hsum. reflexivity.
Qed.

(** X7: once the summary request has succeeded, the upload issues one
    alternative request for every row that scores below 40, all of them,
    whether or not some of them fail: the number of completion requests
    grows by one plus the number of such rows. *)
Theorem X7_one_request_per_low_row
        (user : DecodedToken) (f : File) (rows : list Row)
        (content : string) (w : World) :
  csv toLowerCase (buffer f) = Some rows ->
  completion (completion_calls w) (summaryPrompt (map scored rows)) 100
  = Some content ->
  completion_calls (snd (upload_by user f w)) =
  (completion_calls w + 1 +
   length (List.filter (fun row => (calculateGreenScore (Some row) <? 40)%Z) rows))%nat.
Proof.
  intros Hcsv Hsum.
  rewrite (upload_run _ _ _ _ _ _ _ _ _ Hcsv), on_end_run. cbv zeta.
  rewrite Hsum. unfold lowScoringItems. rewrite low_from_count.
  destruct (Promise_all _); [destruct (firestore_up _)|]; cbn [snd completion_calls]; lia.
Qed.

(** X8: an upload stores a document exactly when it is answered 200, and
    then it stores one document: the result it returns, owned by the
    caller, appended to the collection.  Every other answer leaves the
    collection as it was. *)
Theorem X8_stored_exactly_on_success (req : Request) (w : World) :
  exists (resp : Response) (w' : World),
    upload csv completion firestore_up firestore_id serverTimestamp req w
    = (Returned resp, w') /\
    (status resp = 200 ->
     exists (user : DecodedToken) (fr : FinalResult),
       currentUser req = Some user /\
       body resp = ResultBody fr /\
       analyses w' =
       (analyses w ++
        [stored_doc firestore_id serverTimestamp (storage_calls w) (uid user) fr])%list) /\
    (status resp <> 200 -> analyses w' = analyses w).
Proof.
  destruct req as [[user|] [f|]].
  - upload_cases f; eexists _, _; (split; [reflexivity|]); cbn;
      (split; [try discriminate | try reflexivity; try congruence]).
    intros _. eexists _, _. repeat split.
  - eexists _, _. split; [reflexivity|]. cbn. split; [discriminate|reflexivity].
  - eexists _, _. split; [reflexivity|]. cbn. split; [discriminate|reflexivity].
  - eexists _, _. split; [reflexivity|]. cbn. split; [discriminate|reflexivity].
Qed.

(** X9: in a successful result every item's score lies between 0 and 100,
    and so does the average. *)
Theorem X9_result_scores_in_range
        (user : DecodedToken) (f : File) (w : World) (fr : FinalResult) :
  fst (upload_by user f w) = Returned (res_json (ResultBody fr)) ->
  Forall (fun item => 0 <= greenScore item <= 100) (items fr) /\
  0 <= averageScore fr <= 100.
Proof.
  upload_cases f; cbn [fst]; try discriminate.
  intros H. injection H as <-. cbn [items averageScore].
  assert (Hitems : Forall (fun item => 0 <= greenScore item <= 100)
                          (attach (map trim texts) (map scored rows))).
  { apply (proj1 (List.Forall_map greenScore (fun x => 0 <= x <= 100) _)).
    rewrite attach_scores.
    apply (proj2 (List.Forall_map greenScore (fun x => 0 <= x <= 100) _)).
    apply scored_range. }
  split; [assumption | apply average_range; assumption].
Qed.


(** *** Uploads and the history *)

Lemma where_userId_app (owner : string) (docs docs' : list Doc) :
  where_userId owner (docs ++ docs')%list =
  (where_userId owner docs ++ where_userId owner docs')%list.
Proof. unfold where_userId. apply List.filter_app. Qed.

Lemma where_userId_stored (owner other : string) (k : nat) (fr : FinalResult) :
  where_userId other [stored_doc firestore_id serverTimestamp k owner fr] =
  if String.eqb owner other
  then [stored_doc firestore_id serverTimestamp k owner fr] else [].
Proof. reflexivity. Qed.

(** A document newer than all the others comes first. *)
Lemma orderBy_newest (d : Doc) (docs : list Doc) :
  Forall (fun e => createdAt e < createdAt d) docs ->
  orderBy_createdAt_desc (docs ++ [d])%list = d :: orderBy_createdAt_desc docs.
Proof.
  unfold orderBy_createdAt_desc. rewrite fold_right_app. cbn [fold_right insert_desc].
  induction 1 as [|e docs He _ IH]; [reflexivity|].
  cbn [fold_right]. rewrite IH. cbn [insert_desc].
  replace (createdAt d <? createdAt e)%Z with false
    by (symmetry; apply Z.ltb_ge; lia).
  reflexivity.
Qed.

(** What an upload does to the collection. *)
Lemma upload_analyses (user : DecodedToken) (f : File) (w : World) :
  analyses (snd (upload_by user f w)) = analyses w \/
  exists fr : FinalResult,
    analyses (snd (upload_by user f w)) =
    (analyses w ++
     [stored_doc firestore_id serverTimestamp (storage_calls w) (uid user) fr])%list.
Proof.
  upload_cases f; cbn [snd analyses]; auto.
  right. eexists. reflexivity.
Qed.

(** X10: a result that an upload returned is in the caller's history.  After
    a successful upload, a history request by the same caller that
    Firestore answers lists the stored result, under the id and the time
    Firestore gave it, and lists one entry more than the caller had. *)
Theorem X10_uploaded_result_is_in_history
        (user : DecodedToken) (f : File) (w : World) (fr : FinalResult) :
  fst (upload_by user f w) = Returned (res_json (ResultBody fr)) ->
  firestore_up (storage_calls (snd (upload_by user f w))) = true ->
  exists entries : list HistoryEntry,
    fst (history firestore_up toISOString
                 {| currentUser := Some user; file := None |}
                 (snd (upload_by user f w)))
    = Returned (res_json (HistoryBody entries)) /\
    In {| id := firestore_id (storage_calls w);
          entry_data := fr;
          entry_userId := uid user;
          entry_createdAt := toISOString (serverTimestamp (storage_calls w)) |}
       entries /\
    length entries = S (length (where_userId (uid user) (analyses w))).
Proof.
  intros Hok Hup.
  destruct (upload_success _ _ _ _ Hok) as (Han & _ & _).
  rewrite history_run, Hup. cbn [fst]. rewrite Han.
  rewrite where_userId_app, where_userId_stored, String.eqb_refl.
  eexists. split; [reflexivity|].
  set (mine := where_userId (uid user) (analyses w)).
  set (d := stored_doc firestore_id serverTimestamp (storage_calls w) (uid user) fr).
  pose proof (orderBy_perm (mine ++ [d])%list) as Hperm.
  split.
  - change (In (history_entry toISOString d)
               (map (history_entry toISOString)
                    (orderBy_createdAt_desc (mine ++ [d])%list))).
    apply in_map. eapply Permutation_in; [exact Hperm|].
    apply in_or_app. right. left. reflexivity.
  - rewrite length_map, <- (Permutation_length Hperm), length_app.
    cbn [length]. lia.
Qed.

(** X11: an upload does not touch what other callers see.  Whatever its
    outcome, the documents of a caller with another [uid] are the same
    before and after, and so is that caller's history response. *)
Theorem X11_upload_keeps_other_histories
        (user other : DecodedToken) (f : File) (w : World) :
  uid user <> uid other ->
  where_userId (uid other) (analyses (snd (upload_by user f w)))
  = where_userId (uid other) (analyses w) /\
  (firestore_up (storage_calls w) = true ->
   firestore_up (storage_calls (snd (upload_by user f w))) = true ->
   fst (history firestore_up toISOString
                {| currentUser := Some other; file := None |}
                (snd (upload_by user f w)))
   = fst (history firestore_up toISOString
                  {| currentUser := Some other; file := None |} w)).
Proof.
  intros Hne.
  assert (Hsame : where_userId (uid other) (analyses (snd (upload_by user f w)))
                  = where_userId (uid other) (analyses w)).
  { destruct (upload_analyses user f w) as [->|[fr ->]]; [reflexivity|].
    rewrite where_userId_app, where_userId_stored.
    apply String.eqb_neq in Hne. rewrite Hne. apply app_nil_r. }
  split; [exact Hsame|].
  intros Hup Hup'. rewrite !history_run, Hup, Hup'. cbn [fst].
  rewrite Hsame. reflexivity.
Qed.

(** X12: the newest analysis comes first.  When the time Firestore gives
    the uploaded result is later than that of every analysis the caller
    already has, the caller's next history is the new entry followed by
    the history as it was before the upload. *)
Theorem X12_new_analysis_heads_history
        (user : DecodedToken) (f : File) (w : World) (fr : FinalResult) :
  fst (upload_by user f w) = Returned (res_json (ResultBody fr)) ->
  Forall (fun d => createdAt d < serverTimestamp (storage_calls w))
         (where_userId (uid user) (analyses w)) ->
  firestore_up (storage_calls (snd (upload_by user f w))) = true ->
  fst (history firestore_up toISOString
               {| currentUser := Some user; file := None |}
               (snd (upload_by user f w)))
  = Returned
      (res_json
         (HistoryBody
            (history_entry toISOString
               (stored_doc firestore_id serverTimestamp (storage_calls w) (uid user) fr)
             :: map (history_entry toISOString)
                    (orderBy_createdAt_desc (where_userId (uid user) (analyses w)))))).
Proof.
  intros Hok Hnew Hup.
  destruct (upload_success _ _ _ _ Hok) as (Han & _ & _).
  rewrite history_run, Hup. cbn [fst]. rewrite Han.
  rewrite where_userId_app, where_userId_stored, String.eqb_refl.
  rewrite orderBy_newest by exact Hnew. reflexivity.
Qed.

(** *** The middleware *)

Lemma upto_whole (s sep : string) :
  includes s sep = false -> upto s sep = s.
Proof.
  induction s as [|c s IH].
  - rewrite includes_nil. intros H. unfold upto. rewrite H. reflexivity.
  - rewrite includes_cons, orb_false_iff. intros [Hs Hi].
    cbn [upto]. rewrite Hs, (IH Hi). reflexivity.
Qed.

Lemma decode_bearer (token : string) (fl : option File) :
  includes token "Bearer " = false ->
  decodeIDToken verifyIdToken
                {| authorization := Some ("Bearer " ++ token); upload_file := fl |}
  = {| currentUser := verifyIdToken token; file := fl |}.
Proof.
  intros Hfree. unfold decodeIDToken. cbn [authorization upload_file].
  assert (Hstart : startsWith ("Bearer " ++ token) "Bearer " = true)
    by (apply startsWith_spec; exists token; reflexivity).
  rewrite Hstart.
  assert (Hsplit : split_1 ("Bearer " ++ token) "Bearer " = Some token).
  { change ("Bearer " ++ token) with (String "B" ("earer " ++ token)) at 1.
    cbn [split_1].
    change (String "B" ("earer " ++ token)) with ("Bearer " ++ token).
    rewrite Hstart.
    change (JsString.drop (String.length "Bearer ") ("Bearer " ++ token)) with token.
    rewrite (upto_whole _ _ Hfree). reflexivity. }
  rewrite Hsplit. reflexivity.
Qed.

(** X13: the header the client sends, "Bearer " followed by the token,
    gives the identity provider exactly that token, provided the token
    itself does not contain "Bearer ": the current user of the request is
    what the provider makes of the token. *)
Theorem X13_bearer_token_reaches_provider (token : string) (fl : option File) :
  includes token "Bearer " = false ->
  decodeIDToken verifyIdToken
                {| authorization := Client.bearer token; upload_file := fl |}
  = {| currentUser := verifyIdToken token; file := fl |}.
Proof. exact (decode_bearer token fl). Qed.

(** X14: both routes answer 401 exactly when the middleware left no current
    user; a request with a current user is never answered 401. *)
Theorem X14_unauthorized_iff_no_user
        (route : Route) (req : HttpRequest) (w : World) :
  exists (resp : Response) (w' : World),
    app verifyIdToken csv completion firestore_up firestore_id
        serverTimestamp toISOString route req w
    = (Returned resp, w') /\
    (status resp = 401 <-> currentUser (decodeIDToken verifyIdToken req) = None).
Proof.
  unfold app.
  destruct (decodeIDToken verifyIdToken req) as [[user|] fl] eqn:Hreq;
    cbn [currentUser]; destruct route.
  - destruct fl as [f|].
    + upload_cases f; eexists _, _; (split; [reflexivity|]); cbn;
        split; discriminate.
    + eexists _, _. split; [reflexivity|]. cbn. split; discriminate.
  - rewrite history_run. eexists _, _. split; [reflexivity|].
    destruct (firestore_up _); cbn; split; discriminate.
  - eexists _, _. split; [reflexivity|]. cbn. split; reflexivity.
  - eexists _, _. split; [reflexivity|]. cbn. split; reflexivity.
Qed.

(** *** Rows without a product *)

Lemma prompts_without_product (rows : list Row) (i : nat) :
  Forall (fun row : Row => row !! "product" = None) rows ->
  map (fun ref => alternativePrompt (snd ref)) (low_from i (map scored rows))
  = map (fun _ => undefined_prompt) rows.
Proof.
  intros Hall. revert i.
  induction Hall as [|row rows Hrow _ IH]; intros i; [reflexivity|].
  cbn [map low_from].
  change (greenScore (scored row)) with (calculateGreenScore (Some row)).
  rewrite (score_no_product (Some row)) by (left; exact Hrow).
  cbn [Z.ltb Z.compare map snd]. rewrite IH. f_equal.
  unfold alternativePrompt, product, scored, undefined_prompt.
  cbn [columns]. rewrite Hrow. reflexivity.
Qed.

(** X15: a row without a product column scores 0, so it counts as
    low-scoring and gets an alternative request of its own, whose prompt
    names the product "undefined".  For a file in which no row has a
    product, the upload issues one such request per row after the summary
    request. *)
Theorem X15_rows_without_product_are_requested
        (user : DecodedToken) (f : File) (rows : list Row)
        (content : string) (w : World) :
  csv toLowerCase (buffer f) = Some rows ->
  Forall (fun row : Row => row !! "product" = None) rows ->
  completion (completion_calls w) (summaryPrompt (map scored rows)) 100
  = Some content ->
  map (fun ref => alternativePrompt (snd ref)) (lowScoringItems (map scored rows))
  = map (fun _ => undefined_prompt) rows /\
  completion_calls (snd (upload_by user f w))
  = (completion_calls w + 1 + length rows)%nat.
Proof.
  intros Hcsv Hall Hsum.
  pose proof (prompts_without_product rows 0 Hall) as Hprompts.
  split; [exact Hprompts|].
  assert (Hlen : length (lowScoringItems (map scored rows)) = length rows).
  { unfold lowScoringItems.
    rewrite <- (length_map (fun ref => alternativePrompt (snd ref))), Hprompts.
    apply length_map. }
  rewrite (upload_run _ _ _ _ _ _ _ _ _ Hcsv), on_end_run. cbv zeta.
  rewrite Hsum, Hlen.
  destruct (Promise_all _); [destruct (firestore_up _)|];
    cbn [snd completion_calls]; lia.
Qed.

End Pipeline.

(** * The client against the server *)

Section ClientServer.

Context (verifyIdToken : string -> option DecodedToken)
        (csv : (string -> string) -> string -> option (list Row))
        (completion : nat -> string -> Z -> option string)
        (firestore_up : nat -> bool)
        (firestore_id : nat -> string)
        (serverTimestamp : nat -> Z)
        (toISOString : Z -> string).

Local Abbreviation server :=
  (app verifyIdToken csv completion firestore_up firestore_id
       serverTimestamp toISOString).

Local Abbreviation upload_by user f :=
  (upload csv completion firestore_up firestore_id serverTimestamp
          {| currentUser := Some user; file := Some f |}).

Local Abbreviation history_by user :=
  (history firestore_up toISOString {| currentUser := Some user; file := None |}).

(** The items of a successful result, position by position. *)
Lemma result_items (user : DecodedToken) (f : File) (rows : list Row)
      (w : World) (fr : FinalResult) (i : nat) (item : Item) :
  csv toLowerCase (buffer f) = Some rows ->
  fst (upload_by user f w) = Returned (res_json (ResultBody fr)) ->
  items fr !! i = Some item ->
  exists row : Row,
    rows !! i = Some row /\
    greenScore item = calculateGreenScore (Some row) /\
    (40 <= greenScore item -> columns item = row) /\
    (greenScore item < 40 ->
     exists text : string, columns item = <["suggestion" := text]> row).
Proof.
  intros Hcsv. rewrite (upload_run _ _ _ _ _ _ _ _ _ Hcsv), on_end_run. cbv zeta.
  destruct (completion _ _ _) as [content|]; [|discriminate].
  destruct (Promise_all _) as [texts|] eqn:Hall; [|discriminate].
  destruct (firestore_up _); [|discriminate].
  cbn [fst]. intros H. injection H as <-. cbn [items].
  apply Promise_all_Some in Hall.
  assert (Hlen : length (map trim texts)
                 = length (lowScoringItems (map scored rows))).
  { rewrite length_map, <- (length_map Some texts), <- Hall.
    apply alt_outcomes_length. }
  intros Hi.
  destruct (attach_lookup _ _ _ _ Hi) as (orig & Ho & Hs & Hge & _).
  rewrite list_lookup_fmap in Ho.
  destruct (rows !! i) as [row|] eqn:Hrow; [|discriminate].
  cbn in Ho. injection Ho as <-.
  exists row. split; [reflexivity|]. split; [exact Hs|]. split.
  - intros H40. rewrite Hs in H40. rewrite (Hge H40). reflexivity.
  - intros Hlow. rewrite Hs in Hlow.
    assert (Ho : map scored rows !! i = Some (scored row))
      by (rewrite list_lookup_fmap, Hrow; reflexivity).
    destruct (attach_lookup_low _ _ _ _ Hlen Ho Hlow) as (t & _ & Ht).
    rewrite Ht in Hi. injection Hi as <-. exists t. reflexivity.
Qed.

(** X16: the colour the client gives a score and the enrichment of the
    server use the same threshold.  In a successful result an item shown
    red (score below 40) carries a suggestion set by the enrichment step;
    an item shown orange or green is its CSV row unchanged, and its
    suggestion cell reads N/A when the file has no suggestion column. *)
Theorem X16_red_items_carry_a_suggestion
        (user : DecodedToken) (f : File) (rows : list Row)
        (w : World) (fr : FinalResult) (i : nat) (item : Item) :
  csv toLowerCase (buffer f) = Some rows ->
  fst (upload_by user f w) = Returned (res_json (ResultBody fr)) ->
  items fr !! i = Some item ->
  exists row : Row,
    rows !! i = Some row /\
    (Client.getScoreColor (greenScore item) = "red" ->
     exists text : string, columns item = <["suggestion" := text]> row) /\
    (Client.getScoreColor (greenScore item) <> "red" ->
     columns item = row /\
     (row !! "suggestion" = None -> Client.suggestion_cell item = "N/A")).
Proof.
  intros Hcsv Hok Hi.
  destruct (result_items _ _ _ _ _ _ _ Hcsv Hok Hi) as (row & Hrow & _ & Hge & Hlow).
  exists row. split; [exact Hrow|].
  unfold Client.getScoreColor.
  destruct (70 <=? greenScore item)%Z eqn:H70;
    [|destruct (40 <=? greenScore item)%Z eqn:H40].
  - apply Z.leb_le in H70. split; [discriminate|]. intros _.
    assert (Hc : columns item = row) by (apply Hge; lia).
    split; [exact Hc|]. intros Hs. unfold Client.suggestion_cell.
    rewrite Hc, Hs. reflexivity.
  - apply Z.leb_le in H40. split; [discriminate|]. intros _.
    assert (Hc : columns item = row) by (apply Hge; lia).
    split; [exact Hc|]. intros Hs. unfold Client.suggestion_cell.
    rewrite Hc, Hs. reflexivity.
  - apply Z.leb_gt in H40. split; [|congruence]. intros _. apply Hlow. lia.
Qed.

(** *** The requests of the client *)







Lemma decode_bearer_user (token : string) (fl : option File) (decoded : DecodedToken) :
  includes token "Bearer " = false ->
  verifyIdToken token = Some decoded ->
  decodeIDToken verifyIdToken
                {| authorization := Some ("Bearer " ++ token); upload_file := fl |}
  = {| currentUser := Some decoded; file := fl |}.
Proof.
  intros Hfree Hver. rewrite (decode_bearer _ _ _ Hfree), Hver. reflexivity.
Qed.

(** X18: a signed-in client whose token the identity provider accepts
    uploads a file; when the server answers with a result and Firestore
    answers the history query that follows, the screen shows that result,
    no error and no spinner, and a history that contains the new analysis
    under the id and time Firestore gave it. *)
Theorem X18_client_upload_shows_result_and_history
        (st : Client.State) (u : Client.ClientUser) (selected : File)
        (token : string) (decoded : DecodedToken) (w : World) (fr : FinalResult) :
  Client.user st = Some u ->
  Client.selectedFile st = Some selected ->
  Client.idToken u = Some token ->
  includes token "Bearer " = false ->
  verifyIdToken token = Some decoded ->
  fst (upload_by decoded selected w) = Returned (res_json (ResultBody fr)) ->
  firestore_up (S (storage_calls w)) = true ->
  let run := Client.handleUpload server st w in
  Client.analysisResult (fst run) = Some (ResultBody fr) /\
  Client.loading (fst run) = false /\
  Client.error (fst run) = EmptyString /\
  exists entries : list HistoryEntry,
    Client.history (fst run) = HistoryBody entries /\
    In {| id := firestore_id (storage_calls w);
          entry_data := fr;
          entry_userId := uid decoded;
          entry_createdAt := toISOString (serverTimestamp (storage_calls w)) |}
       entries.
Proof.
  intros Hu Hf Htok Hfree Hver Hok Hup.
  destruct (upload_success csv completion firestore_up firestore_id
              serverTimestamp decoded selected w fr Hok) as (Han & Hcalls & _).
  assert (Hpost : Client.axios server POST_api_upload
                    {| authorization := Client.bearer token;
                       upload_file := Some selected |} w
                  = (Some (ResultBody fr), snd (upload_by decoded selected w))).
  { unfold Client.axios, app, Client.bearer.
    rewrite (decode_bearer_user _ _ _ Hfree Hver).
    destruct (upload_by decoded selected w) as [out w'] eqn:Hrun.
    cbn [fst snd] in Hok |- *. subst out. reflexivity. }
  cbv zeta. unfold Client.handleUpload. rewrite Hf, Hu, Htok, Hpost.
  destruct (upload_by decoded selected w) as [out w'] eqn:Hrun.
  cbn [fst snd] in Hok, Han, Hcalls |- *. subst out.
  unfold Client.fetchHistory. rewrite Htok.
  unfold Client.axios, app, Client.bearer.
  rewrite (decode_bearer_user _ _ _ Hfree Hver).
  rewrite history_run, Hcalls, Hup. cbn.
  repeat split. eexists. split; [reflexivity|].
  rewrite Han, where_userId_app.
  change (where_userId (uid decoded)
            [stored_doc firestore_id serverTimestamp (storage_calls w) (uid decoded) fr])
    with (if String.eqb (uid decoded) (uid decoded)
          then [stored_doc firestore_id serverTimestamp (storage_calls w) (uid decoded) fr]
          else []).
  rewrite String.eqb_refl.
  set (mine := where_userId (uid decoded) (analyses w)).
  set (d := stored_doc firestore_id serverTimestamp (storage_calls w) (uid decoded) fr).
  change (In (history_entry toISOString d)
             (map (history_entry toISOString)
                  (orderBy_createdAt_desc (mine ++ [d])%list))).
  apply in_map. eapply Permutation_in; [apply orderBy_perm|].
  apply in_or_app. right. left. reflexivity.
Qed.


End ClientServer.

(** X19: the colour helpers of both versions of the client cut the scores
    at the same two places: every one of them gives its red class exactly
    to the scores below 40 and its green class exactly to the scores from
    70 on. *)
Theorem X19_colour_bands_agree (score : Z) :
  (score < 40 <->
   Client.getScoreColor score = "red") /\
  (score < 40 <->
   StyledClient.getScoreColor score = "text-red-600 bg-red-100") /\
  (score < 40 <->
   StyledClient.getScoreBadgeColor score = "bg-red-500 text-white") /\
  (70 <= score <->
   Client.getScoreColor score = "green") /\
  (70 <= score <->
   StyledClient.getScoreColor score = "text-green-600 bg-green-100") /\
  (70 <= score <->
   StyledClient.getScoreBadgeColor score = "bg-green-500 text-white").
Proof.
  unfold Client.getScoreColor, StyledClient.getScoreColor,
    StyledClient.getScoreBadgeColor.
  destruct (70 <=? score)%Z eqn:H70; [|destruct (40 <=? score)%Z eqn:H40];
    try apply Z.leb_le in H70; try apply Z.leb_gt in H70;
    try apply Z.leb_le in H40; try apply Z.leb_gt in H40;
    repeat split; intros H; try discriminate; try reflexivity; lia.
Qed.

(** * Concrete runs of the further properties *)

Lemma X5_witness :
  Scenario.upload_broken (Demo.by_alice (Some Scenario.readme_file)) Demo.world0
  = (Returned csv_error, Demo.world0).
Proof.
  exact (proj1 (X5_csv_error_only_on_parse_failure
                  Scenario.csv_broken Demo.completion_ok Demo.firestore_up
                  Demo.firestore_id Demo.serverTimestamp
                  Demo.alice Scenario.readme_file Demo.world0) eq_refl).
Defined.

Lemma X6_witness :
  Scenario.upload_down (Demo.by_alice (Some Scenario.readme_file)) Demo.world0
  = (Returned ai_error,
     {| analyses := []; storage_calls := 0; completion_calls := 1 |}).
Proof.
  refine (X6_summary_failure_stops_upload
            CsvParser.parse Scenario.completion_down Demo.firestore_up
            Demo.firestore_id Demo.serverTimestamp
            Demo.alice Scenario.readme_file (Demo.rows_of Demo.readme_csv)
            Demo.world0 _ _).
  - vm_compute. reflexivity.
  - reflexivity.
Defined.

Lemma X7_witness :
  completion_calls (snd Scenario.readme_run) =
  (0 + 1 +
   length (List.filter (fun row => (calculateGreenScore (Some row) <? 40)%Z)
                       (Demo.rows_of Demo.readme_csv)))%nat.
Proof.
  refine (X7_one_request_per_low_row
            CsvParser.parse Demo.completion_ok Demo.firestore_up
            Demo.firestore_id Demo.serverTimestamp
            Demo.alice Scenario.readme_file (Demo.rows_of Demo.readme_csv)
            " Buy greener. " Demo.world0 _ _).
  - vm_compute. reflexivity.
  - reflexivity.
Defined.

Lemma X8_witness :
  exists (resp : Response) (w' : World),
    Demo.upload_ok (Demo.by_alice (Some Scenario.readme_file)) Demo.world0
    = (Returned resp, w') /\
    (status resp = 200 ->
     exists (user : DecodedToken) (fr : FinalResult),
       Some Demo.alice = Some user /\
       body resp = ResultBody fr /\
       analyses w' =
       ([] ++ [stored_doc Demo.firestore_id Demo.serverTimestamp 0 (uid user) fr])%list) /\
    (status resp <> 200 -> analyses w' = []).
Proof.
  exact (X8_stored_exactly_on_success
           CsvParser.parse Demo.completion_ok Demo.firestore_up
           Demo.firestore_id Demo.serverTimestamp
           (Demo.by_alice (Some Scenario.readme_file)) Demo.world0).
Defined.

Lemma X9_witness :
  Forall (fun item => 0 <= greenScore item <= 100) (items Scenario.readme_result) /\
  0 <= averageScore Scenario.readme_result <= 100.
Proof.
  refine (X9_result_scores_in_range
            CsvParser.parse Demo.completion_ok Demo.firestore_up
            Demo.firestore_id Demo.serverTimestamp
            Demo.alice Scenario.readme_file Demo.world0 Scenario.readme_result _).
  vm_compute. reflexivity.
Defined.

Lemma X10_witness :
  exists entries : list HistoryEntry,
    fst (Scenario.history_of Demo.alice (snd Scenario.readme_run))
    = Returned (res_json (HistoryBody entries)) /\
    In {| id := Demo.firestore_id 0;
          entry_data := Scenario.readme_result;
          entry_userId := "alice";
          entry_createdAt := Demo.toISOString (Demo.serverTimestamp 0) |}
       entries /\
    length entries = S (length (where_userId "alice" [])).
Proof.
  refine (X10_uploaded_result_is_in_history
            CsvParser.parse Demo.completion_ok Demo.firestore_up
            Demo.firestore_id Demo.serverTimestamp Demo.toISOString
            Demo.alice Scenario.readme_file Demo.world0 Scenario.readme_result _ _).
  - vm_compute. reflexivity.
  - reflexivity.
Defined.

Lemma X11_witness :
  where_userId "bob" (analyses (snd Scenario.later_run))
  = where_userId "bob" (analyses Scenario.world_later) /\
  fst (Scenario.history_of Scenario.bob (snd Scenario.later_run))
  = fst (Scenario.history_of Scenario.bob Scenario.world_later).
Proof.
  assert (Hne : uid Demo.alice <> uid Scenario.bob) by (vm_compute; discriminate).
  pose proof (X11_upload_keeps_other_histories
                CsvParser.parse Demo.completion_ok Demo.firestore_up
                Demo.firestore_id Demo.serverTimestamp Demo.toISOString
                Demo.alice Scenario.bob Scenario.readme_file Scenario.world_later Hne)
    as [Hdocs Hhist].
  split; [exact Hdocs | exact (Hhist eq_refl eq_refl)].
Defined.

Lemma X12_witness :
  fst (Scenario.history_of Demo.alice (snd Scenario.later_run))
  = Returned
      (res_json
         (HistoryBody
            (history_entry Demo.toISOString
               (stored_doc Demo.firestore_id Demo.serverTimestamp 40 "alice"
                           Scenario.later_result)
             :: map (history_entry Demo.toISOString)
                    [Demo.doc_of "a2" "alice" 30; Demo.doc_of "a3" "alice" 20;
                     Demo.doc_of "a1" "alice" 10]))).
Proof.
  refine (X12_new_analysis_heads_history
            CsvParser.parse Demo.completion_ok Demo.firestore_up
            Demo.firestore_id Demo.serverTimestamp Demo.toISOString
            Demo.alice Scenario.readme_file Scenario.world_later
            Scenario.later_result _ _ _).
  - vm_compute. reflexivity.
  - vm_compute. repeat (constructor; [reflexivity|]). constructor.
  - reflexivity.
Defined.

Lemma X13_witness :
  decodeIDToken Demo.verifyIdToken
                {| authorization := Some "Bearer alice-token"; upload_file := None |}
  = {| currentUser := Some Demo.alice; file := None |}.
Proof.
  refine (X13_bearer_token_reaches_provider Demo.verifyIdToken "alice-token" None _).
  vm_compute. reflexivity.
Defined.

Lemma X14_witness :
  exists (resp : Response) (w' : World),
    Demo.app_ok GET_api_history
                {| authorization := Some "Basic alice-token"; upload_file := None |}
                Demo.world_history
    = (Returned resp, w') /\
    (status resp = 401 <->
     currentUser (decodeIDToken Demo.verifyIdToken
                    {| authorization := Some "Basic alice-token";
                       upload_file := None |}) = None).
Proof.
  exact (X14_unauthorized_iff_no_user
           Demo.verifyIdToken CsvParser.parse Demo.completion_ok Demo.firestore_up
           Demo.firestore_id Demo.serverTimestamp Demo.toISOString
           GET_api_history
           {| authorization := Some "Basic alice-token"; upload_file := None |}
           Demo.world_history).
Defined.

Lemma X15_witness :
  map (fun ref => alternativePrompt (snd ref))
      (lowScoringItems (map scored (Demo.rows_of Demo.item_csv)))
  = map (fun _ => undefined_prompt) (Demo.rows_of Demo.item_csv) /\
  completion_calls
    (snd (Demo.upload_ok (Demo.by_alice (Some Scenario.item_file)) Demo.world0))
  = (0 + 1 + length (Demo.rows_of Demo.item_csv))%nat.
Proof.
  refine (X15_rows_without_product_are_requested
            CsvParser.parse Demo.completion_ok Demo.firestore_up
            Demo.firestore_id Demo.serverTimestamp
            Demo.alice Scenario.item_file (Demo.rows_of Demo.item_csv)
            " Buy greener. " Demo.world0 _ _ _).
  - vm_compute. reflexivity.
  - vm_compute. repeat (constructor; [reflexivity|]). constructor.
  - reflexivity.
Defined.

Lemma X16_witness :
  Client.getScoreColor (greenScore Scenario.cups_item) = "red" /\
  exists row : Row,
    Demo.rows_of Demo.readme_csv !! 1%nat = Some row /\
    (Client.getScoreColor (greenScore Scenario.cups_item) = "red" ->
     exists text : string, columns Scenario.cups_item = <["suggestion" := text]> row) /\
    (Client.getScoreColor (greenScore Scenario.cups_item) <> "red" ->
     columns Scenario.cups_item = row /\
     (row !! "suggestion" = None ->
      Client.suggestion_cell Scenario.cups_item = "N/A")).
Proof.
  split; [vm_compute; reflexivity|].
  refine (X16_red_items_carry_a_suggestion
            CsvParser.parse Demo.completion_ok Demo.firestore_up
            Demo.firestore_id Demo.serverTimestamp
            Demo.alice Scenario.readme_file (Demo.rows_of Demo.readme_csv)
            Demo.world0 Scenario.readme_result 1%nat Scenario.cups_item _ _ _).
  - vm_compute. reflexivity.
  - vm_compute. reflexivity.
  - vm_compute. reflexivity.
Defined.


Lemma X18_witness :
  let run := Client.handleUpload Demo.app_ok
               (ClientScenario.ready ClientScenario.alice Scenario.readme_file)
               Demo.world0 in
  Client.analysisResult (fst run) = Some (ResultBody Scenario.readme_result) /\
  Client.loading (fst run) = false /\
  Client.error (fst run) = EmptyString /\
  exists entries : list HistoryEntry,
    Client.history (fst run) = HistoryBody entries /\
    In {| id := Demo.firestore_id 0;
          entry_data := Scenario.readme_result;
          entry_userId := "alice";
          entry_createdAt := Demo.toISOString (Demo.serverTimestamp 0) |}
       entries.
Proof.
  refine (X18_client_upload_shows_result_and_history
            Demo.verifyIdToken CsvParser.parse Demo.completion_ok
            Demo.firestore_up Demo.firestore_id Demo.serverTimestamp
            Demo.toISOString
            (ClientScenario.ready ClientScenario.alice Scenario.readme_file)
            ClientScenario.alice Scenario.readme_file "alice-token" Demo.alice
            Demo.world0 Scenario.readme_result _ _ _ _ _ _ _);
    try reflexivity; vm_compute; reflexivity.
Defined.

Lemma X19_witness :
  Client.getScoreColor 35 = "red" /\
  StyledClient.getScoreBadgeColor 35 = "bg-red-500 text-white".
Proof.
  pose proof (X19_colour_bands_agree 35) as (H1 & _ & H3 & _).
  split; [apply H1 | apply H3]; reflexivity.
Defined.

